(** * NeuroScan AI upload interface: the controller of [static/main.js]

    A shallow embedding of the class [MedicalImageUploader] and of the part
    of the page it reads and writes, followed by the properties of its
    operations.

    Conventions of the embedding.
    - The controller object and the elements it holds are one record,
      [State]; a method that cannot throw is a function [State -> State].
    - The body of the [try] block of [analyzeFile] lives in a state and
      exception monad [M]; each [await] ends a segment, so that handlers of
      other events can run between two segments, as they do in the browser.
    - Strings are byte strings.  Numbers that only ever hold small naturals
      (sizes, percentages, HTTP statuses, milliseconds) are [N]. *)

From Stdlib Require Import String Ascii List NArith Bool Arith Lia DecimalString.
Import ListNotations.
Local Open Scope string_scope.
Local Open Scope N_scope.

Set Implicit Arguments.
Set Warnings "-register-all".

(** ** Strings *)

Module Str.

Definition empty : string := EmptyString.

(** The double quote and the line feed, which a literal cannot hold. *)
Definition dq : string := String (ascii_of_nat 34) EmptyString.
Definition nl : string := String (ascii_of_nat 10) EmptyString.

Fixpoint spaces (n : nat) : string :=
  match n with
  | O => EmptyString
  | S n' => String " "%char (spaces n')
  end.

Definition quoted (s : string) : string := dq ++ s ++ dq.

Definition isUpper (c : ascii) : bool :=
  let n := N_of_ascii c in (65 <=? n) && (n <=? 90).

Definition isLower (c : ascii) : bool :=
  let n := N_of_ascii c in (97 <=? n) && (n <=? 122).

Definition lowerChar (c : ascii) : ascii :=
  if isUpper c then ascii_of_N (N_of_ascii c + 32) else c.

Definition upperChar (c : ascii) : ascii :=
  if isLower c then ascii_of_N (N_of_ascii c - 32) else c.

(** [String.prototype.toLowerCase] on the letters A to Z.  Bytes from 128
    on, which encode the characters outside ASCII, are kept as they are:
    the only use of the result is the comparison with ['notumor'], and no
    character outside ASCII has one of its letters as lower case. *)
Fixpoint toLowerCase (s : string) : string :=
  match s with
  | EmptyString => EmptyString
  | String c r => String (lowerChar c) (toLowerCase r)
  end.

(** [String.prototype.startsWith]. *)
Definition startsWith (s p : string) : bool := String.prefix p s.

(** Two strings that differ at most in the case of their ASCII letters. *)
Fixpoint equalsIgnoreCase (a b : string) : bool :=
  match a, b with
  | EmptyString, EmptyString => true
  | String x a', String y b' =>
      Ascii.eqb (lowerChar x) (lowerChar y) && equalsIgnoreCase a' b'
  | _, _ => false
  end.

(** [text-transform: capitalize]: the first letter of each word is painted
    in upper case, every other character as it is.  [start] tells whether
    the next character begins a word. *)
Fixpoint capitalizeFrom (start : bool) (s : string) : string :=
  match s with
  | EmptyString => EmptyString
  | String c r =>
      if Ascii.eqb c " "%char then String c (capitalizeFrom true r)
      else String (if start then upperChar c else c) (capitalizeFrom false r)
  end.

Definition capitalize (s : string) : string := capitalizeFrom true s.

(** [String.prototype.includes]. *)
Definition includes (s p : string) : bool :=
  match String.index 0 p s with
  | Some _ => true
  | None => false
  end.

(** Decimal text of a natural number, as a template literal prints it. *)
Definition ofN (n : N) : string := NilZero.string_of_uint (N.to_uint n).

End Str.

(** ** Values that come from outside *)

(** A [File] of the browser: what the controller reads of it. *)
Record File := { name : string; size : N; type : string }.

(** A JSON number reaches this program only through [ToBoolean] and
    [ToString]; it is given by these two observations. *)
Record number := { nonzero : bool; decimal : string }.

(** What [JSON.parse] yields, and [undefined] for an absent property. *)
Inductive value :=
| VUndefined
| VNull
| VBoolean (b : bool)
| VNumber (n : number)
| VString (s : string)
| VArray (items : list value)
| VObject (props : list (string * value)).

(** A thrown [Error] object. *)
Record Error := { error_name : string; message : string }.

Definition mkError (m : string) : Error :=
  {| error_name := "Error"; message := m |}.

Definition TypeError (m : string) : Error :=
  {| error_name := "TypeError"; message := m |}.

(** How a promise settles. *)
Inductive Settled (A : Type) :=
| Fulfilled (a : A)
| Rejected (e : Error).
Arguments Fulfilled {A} a.
Arguments Rejected {A} e.

(** A [Response] of [fetch]: its status and what [response.json()] settles
    to. *)
Record Response := { status : N; json : Settled value }.

(** [response.ok]: the status is in the range 200-299. *)
Definition ok (r : Response) : bool :=
  (200 <=? status r) && (status r <=? 299).

(** The request [fetch(url, { method, body })] sends. *)
Record Request :=
  { url : string; method : string; body : list (string * File) }.

(** ** The page *)

(** A child of the preview pane. *)
Inductive Node :=
| Markup (html : string)
| Img (src : string).

(** A notification: the [div] that [showAlert] appends.  [alert_id] stands
    for the identity of the element. *)
Record Alert :=
  { alert_id : nat; className : string; textContent : string }.

(** A pending [setTimeout(() => alertDiv.remove(), ms)]. *)
Record Timer := { ms : N; target : nat }.

(** The controller and the elements it holds.  [fileSize_textContent] is the
    byte count whose [formatFileSize] text the element shows ([None]: the
    text of the page as loaded); [formatFileSize] itself is floating-point
    arithmetic and is not embedded.  [fileInput_value] follows the writes of
    the controller, not those of the browser.  [readers] are the
    [FileReader]s that have not loaded yet, [network] the requests sent so
    far, [console] the errors logged, [nextId] the identity of the next
    element created. *)
Record State := Build_State {
  currentFile : option File;
  maxFileSize : N;
  allowedFormats : list string;
  uploadArea_dragOver : bool;
  fileInput_value : string;
  fileInfo_display : string;
  fileName_textContent : string;
  fileSize_textContent : option N;
  filePreview : list Node;
  analyzeBtn_disabled : bool;
  progressContainer_display : string;
  progressFill_width : string;
  progressText_textContent : string;
  resultsCard_display : string;
  resultsContent_innerHTML : string;
  alertContainer : list Alert;
  timers : list Timer;
  readers : list File;
  network : list Request;
  console : list Error;
  nextId : nat
}.

(** Assignments to one field. *)

Definition set_currentFile (v : option File) (s : State) : State :=
  let '(Build_State cf mx af dg iv fi fn fz pv ab pc pw pt rc rh al tm rd nw co nx) := s in
  Build_State v mx af dg iv fi fn fz pv ab pc pw pt rc rh al tm rd nw co nx.

Definition set_uploadArea_dragOver (v : bool) (s : State) : State :=
  let '(Build_State cf mx af dg iv fi fn fz pv ab pc pw pt rc rh al tm rd nw co nx) := s in
  Build_State cf mx af v iv fi fn fz pv ab pc pw pt rc rh al tm rd nw co nx.

Definition set_fileInput_value (v : string) (s : State) : State :=
  let '(Build_State cf mx af dg iv fi fn fz pv ab pc pw pt rc rh al tm rd nw co nx) := s in
  Build_State cf mx af dg v fi fn fz pv ab pc pw pt rc rh al tm rd nw co nx.

Definition set_fileInfo_display (v : string) (s : State) : State :=
  let '(Build_State cf mx af dg iv fi fn fz pv ab pc pw pt rc rh al tm rd nw co nx) := s in
  Build_State cf mx af dg iv v fn fz pv ab pc pw pt rc rh al tm rd nw co nx.

Definition set_fileName_textContent (v : string) (s : State) : State :=
  let '(Build_State cf mx af dg iv fi fn fz pv ab pc pw pt rc rh al tm rd nw co nx) := s in
  Build_State cf mx af dg iv fi v fz pv ab pc pw pt rc rh al tm rd nw co nx.

Definition set_fileSize_textContent (v : option N) (s : State) : State :=
  let '(Build_State cf mx af dg iv fi fn fz pv ab pc pw pt rc rh al tm rd nw co nx) := s in
  Build_State cf mx af dg iv fi fn v pv ab pc pw pt rc rh al tm rd nw co nx.

Definition set_filePreview (v : list Node) (s : State) : State :=
  let '(Build_State cf mx af dg iv fi fn fz pv ab pc pw pt rc rh al tm rd nw co nx) := s in
  Build_State cf mx af dg iv fi fn fz v ab pc pw pt rc rh al tm rd nw co nx.

Definition set_analyzeBtn_disabled (v : bool) (s : State) : State :=
  let '(Build_State cf mx af dg iv fi fn fz pv ab pc pw pt rc rh al tm rd nw co nx) := s in
  Build_State cf mx af dg iv fi fn fz pv v pc pw pt rc rh al tm rd nw co nx.

Definition set_progressContainer_display (v : string) (s : State) : State :=
  let '(Build_State cf mx af dg iv fi fn fz pv ab pc pw pt rc rh al tm rd nw co nx) := s in
  Build_State cf mx af dg iv fi fn fz pv ab v pw pt rc rh al tm rd nw co nx.

Definition set_progressFill_width (v : string) (s : State) : State :=
  let '(Build_State cf mx af dg iv fi fn fz pv ab pc pw pt rc rh al tm rd nw co nx) := s in
  Build_State cf mx af dg iv fi fn fz pv ab pc v pt rc rh al tm rd nw co nx.

Definition set_progressText_textContent (v : string) (s : State) : State :=
  let '(Build_State cf mx af dg iv fi fn fz pv ab pc pw pt rc rh al tm rd nw co nx) := s in
  Build_State cf mx af dg iv fi fn fz pv ab pc pw v rc rh al tm rd nw co nx.

Definition set_resultsCard_display (v : string) (s : State) : State :=
  let '(Build_State cf mx af dg iv fi fn fz pv ab pc pw pt rc rh al tm rd nw co nx) := s in
  Build_State cf mx af dg iv fi fn fz pv ab pc pw pt v rh al tm rd nw co nx.

Definition set_resultsContent_innerHTML (v : string) (s : State) : State :=
  let '(Build_State cf mx af dg iv fi fn fz pv ab pc pw pt rc rh al tm rd nw co nx) := s in
  Build_State cf mx af dg iv fi fn fz pv ab pc pw pt rc v al tm rd nw co nx.

Definition set_alertContainer (v : list Alert) (s : State) : State :=
  let '(Build_State cf mx af dg iv fi fn fz pv ab pc pw pt rc rh al tm rd nw co nx) := s in
  Build_State cf mx af dg iv fi fn fz pv ab pc pw pt rc rh v tm rd nw co nx.

Definition set_timers (v : list Timer) (s : State) : State :=
  let '(Build_State cf mx af dg iv fi fn fz pv ab pc pw pt rc rh al tm rd nw co nx) := s in
  Build_State cf mx af dg iv fi fn fz pv ab pc pw pt rc rh al v rd nw co nx.

Definition set_readers (v : list File) (s : State) : State :=
  let '(Build_State cf mx af dg iv fi fn fz pv ab pc pw pt rc rh al tm rd nw co nx) := s in
  Build_State cf mx af dg iv fi fn fz pv ab pc pw pt rc rh al tm v nw co nx.

Definition set_network (v : list Request) (s : State) : State :=
  let '(Build_State cf mx af dg iv fi fn fz pv ab pc pw pt rc rh al tm rd nw co nx) := s in
  Build_State cf mx af dg iv fi fn fz pv ab pc pw pt rc rh al tm rd v co nx.

Definition set_console (v : list Error) (s : State) : State :=
  let '(Build_State cf mx af dg iv fi fn fz pv ab pc pw pt rc rh al tm rd nw co nx) := s in
  Build_State cf mx af dg iv fi fn fz pv ab pc pw pt rc rh al tm rd nw v nx.

Definition set_nextId (v : nat) (s : State) : State :=
  let '(Build_State cf mx af dg iv fi fn fz pv ab pc pw pt rc rh al tm rd nw co nx) := s in
  Build_State cf mx af dg iv fi fn fz pv ab pc pw pt rc rh al tm rd nw co v.

Definition set_allowedFormats (v : list string) (s : State) : State :=
  let '(Build_State cf mx af dg iv fi fn fz pv ab pc pw pt rc rh al tm rd nw co nx) := s in
  Build_State cf mx v dg iv fi fn fz pv ab pc pw pt rc rh al tm rd nw co nx.

(** Statements in sequence. *)
Definition seq (f g : State -> State) : State -> State := fun s => g (f s).
Infix ">>" := seq (at level 45, left associativity).

(** ** The language's own operations on values *)

Module JS.

(** [ToBoolean]. *)
Definition truthy (v : value) : bool :=
  match v with
  | VUndefined | VNull => false
  | VBoolean b => b
  | VNumber n => nonzero n
  | VString s => negb (String.eqb s Str.empty)
  | VArray _ | VObject _ => true
  end.

(** [a || b]. *)
Definition or (a b : value) : value := if truthy a then a else b.

Fixpoint lookup (key : string) (props : list (string * value)) : option value :=
  match props with
  | [] => None
  | (k, v) :: rest => if String.eqb k key then Some v else lookup key rest
  end.

(** The property read [v.key], for a [key] that no built-in prototype
    defines (['error'] and ['prediction'] are such keys).  The wording of
    the [TypeError] is V8's. *)
Definition get (v : value) (key : string) : Error + value :=
  match v with
  | VUndefined =>
      inl (TypeError ("Cannot read properties of undefined (reading '" ++ key ++ "')"))
  | VNull =>
      inl (TypeError ("Cannot read properties of null (reading '" ++ key ++ "')"))
  | VObject props =>
      inr (match lookup key props with Some x => x | None => VUndefined end)
  | _ => inr VUndefined
  end.

Definition hasOwn (key : string) (props : list (string * value)) : bool :=
  match lookup key props with Some _ => true | None => false end.

(** [ToString].  An array is joined with commas, [null] and [undefined]
    elements giving the empty string.  An object prints as
    [[object Object]] through [Object.prototype.toString], unless it has an
    own [toString], which in a parsed value is never a function: then the
    conversion finds no primitive and throws. *)
Fixpoint toString (v : value) : Error + string :=
  match v with
  | VUndefined => inr "undefined"
  | VNull => inr "null"
  | VBoolean b => inr (if b then "true" else "false")
  | VNumber n => inr (decimal n)
  | VString s => inr s
  | VArray items =>
      let element (x : value) : Error + string :=
        match x with
        | VUndefined | VNull => inr Str.empty
        | _ => toString x
        end in
      (fix join (l : list value) : Error + string :=
         match l with
         | [] => inr Str.empty
         | [x] => element x
         | x :: rest =>
             match element x with
             | inl e => inl e
             | inr sx =>
                 match join rest with
                 | inl e => inl e
                 | inr sr => inr (sx ++ "," ++ sr)
                 end
             end
         end) items
  | VObject props =>
      if hasOwn "toString" props
      then inl (TypeError "Cannot convert object to primitive value")
      else inr "[object Object]"
  end.

(** The call [prediction.toLowerCase()]. *)
Definition call_toLowerCase (prediction : value) : Error + string :=
  match prediction with
  | VString s => inr (Str.toLowerCase s)
  | VUndefined =>
      inl (TypeError "Cannot read properties of undefined (reading 'toLowerCase')")
  | VNull =>
      inl (TypeError "Cannot read properties of null (reading 'toLowerCase')")
  | _ => inl (TypeError "prediction.toLowerCase is not a function")
  end.

End JS.

(** ** Methods that cannot throw *)

(** [new MedicalImageUploader()] on the page as loaded: the constructor sets
    the three fields of its own and takes the elements as it finds them. *)
Definition constructor (page : State) : State :=
  {| currentFile := None;
     maxFileSize := 50 * 1024 * 1024;
     allowedFormats := ["png"; "jpg"; "jpeg"; "gif"; "bmp"; "tiff"];
     uploadArea_dragOver := uploadArea_dragOver page;
     fileInput_value := fileInput_value page;
     fileInfo_display := fileInfo_display page;
     fileName_textContent := fileName_textContent page;
     fileSize_textContent := fileSize_textContent page;
     filePreview := filePreview page;
     analyzeBtn_disabled := analyzeBtn_disabled page;
     progressContainer_display := progressContainer_display page;
     progressFill_width := progressFill_width page;
     progressText_textContent := progressText_textContent page;
     resultsCard_display := resultsCard_display page;
     resultsContent_innerHTML := resultsContent_innerHTML page;
     alertContainer := alertContainer page;
     timers := timers page;
     readers := readers page;
     network := network page;
     console := console page;
     nextId := nextId page |}.

Definition handleDragOver : State -> State := set_uploadArea_dragOver true.
Definition handleDragLeave : State -> State := set_uploadArea_dragOver false.

(** [showAlert(message, type)]: the notification is appended and its removal
    is scheduled 5000 ms later. *)
Definition showAlert (message type : string) (s : State) : State :=
  let alertDiv :=
    {| alert_id := nextId s;
       className := "alert alert-" ++ type;
       textContent := message |} in
  (set_nextId (S (nextId s))
   >> set_alertContainer (alertContainer s ++ [alertDiv])
   >> set_timers (timers s ++ [{| ms := 5000; target := alert_id alertDiv |}])) s.

(** [alertDiv.remove()]. *)
Definition removeAlert (id : nat) (s : State) : State :=
  set_alertContainer
    (filter (fun a => negb (Nat.eqb (alert_id a) id)) (alertContainer s)) s.

Record ValidationResult := { valid : bool; validation_message : option string }.

Definition validateFile (file : File) (s : State) : ValidationResult :=
  if maxFileSize s <? size file
  then {| valid := false; validation_message := Some "File size exceeds 50MB limit." |}
  else {| valid := true; validation_message := None |}.

(** Line 78 writes [formatFileSize(file.size)]; the field records
    [file.size], the argument of that call, and no property below speaks of
    the text itself. *)
Definition displayFileInfo (file : File) : State -> State :=
  set_fileName_textContent (name file)
  >> set_fileSize_textContent (Some (size file))
  >> set_fileInfo_display "block".

Definition nonImagePreview (fileName : string) : string :=
  "<div class=" ++ Str.quoted "non-image-preview" ++ "><i class="
  ++ Str.quoted "fas fa-file-medical" ++ "></i><p>" ++ fileName ++ "</p></div>".

(** [createFilePreview]: an image is handed to a [FileReader], whose [onload]
    runs later; any other file gets the placeholder at once. *)
Definition createFilePreview (file : File) (s : State) : State :=
  if Str.startsWith (type file) "image/"
  then set_readers (readers s ++ [file]) s
  else set_filePreview [Markup (nonImagePreview (name file))] s.

(** [reader.onload]. *)
Definition reader_onload (result : string) : State -> State :=
  set_filePreview [] >> (fun s => set_filePreview (filePreview s ++ [Img result]) s).

Definition enableAnalyzeButton : State -> State := set_analyzeBtn_disabled false.

Definition showProgress : State -> State := set_progressContainer_display "block".

Definition updateProgress (percentage : N) (text : string) : State -> State :=
  set_progressFill_width (Str.ofN percentage ++ "%")
  >> set_progressText_textContent text.

Definition hideProgress : State -> State := set_progressContainer_display "none".

Definition hideResults : State -> State := set_resultsCard_display "none".

Definition processFile (file : File) (s : State) : State :=
  let validation := validateFile file s in
  if negb (valid validation)
  then showAlert
         (match validation_message validation with
          | Some m => m
          | None => "undefined"
          end) "error" s
  else (set_currentFile (Some file)
        >> displayFileInfo file
        >> createFilePreview file
        >> enableAnalyzeButton
        >> hideResults) s.

Definition handleFileDrop (files : list File) (s : State) : State :=
  let s := set_uploadArea_dragOver false s in
  match files with
  | file :: _ => processFile file s
  | [] => s
  end.

Definition handleFileSelect (files : list File) (s : State) : State :=
  match files with
  | file :: _ => processFile file s
  | [] => s
  end.

Definition removeFile : State -> State :=
  set_currentFile None
  >> set_fileInput_value Str.empty
  >> set_fileInfo_display "none"
  >> set_analyzeBtn_disabled true
  >> hideProgress
  >> hideResults
  >> set_filePreview [].

Definition console_error (error : Error) (s : State) : State :=
  set_console (console s ++ [error]) s.

(** ** The state and exception monad of the [try] block *)

Inductive Outcome (A : Type) :=
| Normal (a : A) (s : State)
| Thrown (e : Error) (s : State).
Arguments Normal {A} a s.
Arguments Thrown {A} e s.

Definition M (A : Type) : Type := State -> Outcome A.

Definition ret {A} (a : A) : M A := fun s => Normal a s.

Definition bind {A B} (m : M A) (k : A -> M B) : M B :=
  fun s =>
    match m s with
    | Normal a s' => k a s'
    | Thrown e s' => Thrown e s'
    end.

Definition throw {A} (e : Error) : M A := fun s => Thrown e s.

(** A statement that cannot throw. *)
Definition exec (f : State -> State) : M unit := fun s => Normal tt (f s).

(** An expression of the language, which may throw. *)
Definition eval {A} (r : Error + A) : M A :=
  match r with
  | inl e => throw e
  | inr a => ret a
  end.

(** [await p] once [p] has settled. *)
Definition awaited {A} (p : Settled A) : M A :=
  match p with
  | Fulfilled a => ret a
  | Rejected e => throw e
  end.

Notation "x <- m ;; k" := (bind m (fun x => k))
  (at level 61, m at next level, right associativity).
Notation "m ;; k" := (bind m (fun _ => k))
  (at level 61, right associativity).

(** ** Rendering a result *)

(** The style of the paragraph that holds the label (line 170). *)
Definition labelStyle (resultColor : string) : string :=
  "font-size: 1.75rem; font-weight: 600; color: " ++ resultColor
  ++ "; margin: 0; text-transform: capitalize;".

(** The template literal of lines 164-173 up to the label: it ends with the
    opening tag of the label's paragraph. *)
Definition resultHead (resultClass resultIcon resultColor : string) : string :=
  Str.nl ++ Str.spaces 12
  ++ "<div class=" ++ Str.quoted ("result-details " ++ resultClass) ++ ">"
  ++ Str.nl ++ Str.spaces 16
  ++ "<i class=" ++ Str.quoted ("fas " ++ resultIcon) ++ " style="
  ++ Str.quoted ("font-size: 3rem; color: " ++ resultColor ++ "; margin-bottom: 1rem;")
  ++ "></i>"
  ++ Str.nl ++ Str.spaces 16
  ++ "<h4 style=" ++ Str.quoted "color: var(--text-primary); margin-bottom: 0.5rem;"
  ++ ">Analysis Complete</h4>"
  ++ Str.nl ++ Str.spaces 16
  ++ "<p style="
  ++ Str.quoted "color: var(--text-secondary); font-size: 1.1rem; margin-bottom: 1.5rem;"
  ++ ">The AI model's analysis suggests:</p>"
  ++ Str.nl ++ Str.spaces 16
  ++ "<div style="
  ++ Str.quoted "background: rgba(0,0,0,0.2); padding: 1rem 1.5rem; border-radius: 8px; display: inline-block;"
  ++ ">"
  ++ Str.nl ++ Str.spaces 20
  ++ "<p style=" ++ Str.quoted (labelStyle resultColor) ++ ">".

(** The template literal after the label. *)
Definition resultTail : string :=
  "</p>"
  ++ Str.nl ++ Str.spaces 16 ++ "</div>"
  ++ Str.nl ++ Str.spaces 12 ++ "</div>"
  ++ Str.nl ++ Str.spaces 8.

(** The template literal assigned to [resultsContent.innerHTML]. *)
Definition resultTemplate (resultClass resultIcon resultColor prediction : string) : string :=
  resultHead resultClass resultIcon resultColor ++ prediction ++ resultTail.

(** The three choices that follow [isTumor]. *)
Definition resultClass (isTumor : bool) : string :=
  if isTumor then "tumor" else "notumor".
Definition resultIcon (isTumor : bool) : string :=
  if isTumor then "fa-exclamation-triangle" else "fa-check-circle".
Definition resultColor (isTumor : bool) : string :=
  if isTumor then "var(--warning)" else "var(--success)".

Definition showResults (prediction : value) : M unit :=
  lowered <- eval (JS.call_toLowerCase prediction) ;;
  let isTumor := negb (String.eqb lowered "notumor") in
  text <- eval (JS.toString prediction) ;;
  exec (set_resultsContent_innerHTML
          (resultTemplate (resultClass isTumor) (resultIcon isTumor)
                          (resultColor isTumor) text)
        >> set_resultsCard_display "block").

(** What the browser paints for a text under an inline style: capitalized
    when the style declares [text-transform: capitalize], as it is
    otherwise. *)
Definition painted (style text : string) : string :=
  if Str.includes style "text-transform: capitalize"
  then Str.capitalize text
  else text.

(** What the user reads as the label of a result. *)
Definition paintedLabel (resultColor prediction : string) : string :=
  painted (labelStyle resultColor) prediction.

(** ** [analyzeFile] *)

(** The four places where a call of [analyzeFile] is suspended: the [await]s
    of lines 124, 129, 133 and 136. *)
Inductive Suspended :=
| AwaitFetch (request : Request)
| AwaitErrorJson (response : Response)
| AwaitDataJson (response : Response)
| AwaitDelay (delay : N) (data : value).

(** [fetch(url, { method, body })]: the request leaves. *)
Definition fetch (url method : string) (body : list (string * File)) : M Suspended :=
  fun s =>
    let request := {| url := url; method := method; body := body |} in
    Normal (AwaitFetch request) (set_network (network s ++ [request]) s).

(** Lines 116-124, for the file that the guard of line 110 found. *)
Definition try_start (file : File) : M (option Suspended) :=
  exec showProgress ;;
  exec (set_analyzeBtn_disabled true) ;;
  let formData := [("file", file)] in
  exec (updateProgress 30 "Uploading to secure server...") ;;
  k <- fetch "/predict" "POST" formData ;;
  ret (Some k).

(** Lines 124-133, once [fetch] has settled. *)
Definition afterFetch (reply : Settled Response) : M (option Suspended) :=
  response <- awaited reply ;;
  exec (updateProgress 80 "AI model is analyzing the scan...") ;;
  if negb (ok response)
  then ret (Some (AwaitErrorJson response))
  else ret (Some (AwaitDataJson response)).

(** Lines 129-130. *)
Definition afterErrorJson (response : Response) : M (option Suspended) :=
  errorData <- awaited (json response) ;;
  error <- eval (JS.get errorData "error") ;;
  m <- eval (JS.toString (JS.or error (VString "Server error during analysis."))) ;;
  throw (mkError m).

(** Lines 133-136. *)
Definition afterDataJson (response : Response) : M (option Suspended) :=
  data <- awaited (json response) ;;
  exec (updateProgress 100 "Analysis complete!") ;;
  ret (Some (AwaitDelay 500 data)).

(** Lines 137-140. *)
Definition afterDelay (data : value) : M (option Suspended) :=
  exec hideProgress ;;
  prediction <- eval (JS.get data "prediction") ;;
  showResults prediction ;;
  exec (showAlert "Analysis completed successfully!" "success") ;;
  ret None.

(** The [catch] clause. *)
Definition catch (error : Error) : State -> State :=
  hideProgress
  >> console_error error
  >> showAlert ("Analysis failed: " ++ message error) "error".

(** The [finally] clause. *)
Definition finally : State -> State := set_analyzeBtn_disabled false.

(** A segment of the [try] block inside its [catch] and [finally]: the call
    stays suspended, or it ends through [finally], after [catch] when the
    segment threw. *)
Definition guarded (r : Outcome (option Suspended)) : State * option Suspended :=
  match r with
  | Normal (Some k) s => (s, Some k)
  | Normal None s => (finally s, None)
  | Thrown e s => (finally (catch e s), None)
  end.

(** The call of [analyzeFile], up to its first [await]. *)
Definition analyzeFile_call (s : State) : State * option Suspended :=
  match currentFile s with
  | None => (showAlert "No file selected for analysis" "error" s, None)
  | Some file => guarded (try_start file s)
  end.

(** A suspended call goes on.  [reply] is read when the call waits for
    [fetch] only; the other [await]s settle from what the call holds. *)
Definition analyzeFile_resume (k : Suspended) (reply : Settled Response)
    (s : State) : State * option Suspended :=
  match k with
  | AwaitFetch _ => guarded (afterFetch reply s)
  | AwaitErrorJson response => guarded (afterErrorJson response s)
  | AwaitDataJson response => guarded (afterDataJson response s)
  | AwaitDelay _ data => guarded (afterDelay data s)
  end.

(** A call driven to its end with no other handler in between.  No call
    goes through more than three [await]s. *)
Fixpoint drive (awaits : nat) (reply : Settled Response)
    (r : State * option Suspended) : State * option Suspended :=
  match awaits, r with
  | S n, (s, Some k) => drive n reply (analyzeFile_resume k reply s)
  | _, _ => r
  end.

Definition analyzeFile (reply : Settled Response) (s : State) : State :=
  fst (drive 3 reply (analyzeFile_call s)).

(** ** The event loop *)

(** The page between two handlers: the controller and the calls of
    [analyzeFile] that are suspended. *)
Record World := { ui : State; calls : list Suspended }.

(** What the browser can deliver.  [FetchSettles i] and [Resumes i] concern
    the [i]-th suspended call; [TimerFires i] the [i]-th pending timer;
    [ReaderLoads i] the [i]-th pending [FileReader]. *)
Inductive Event :=
| Change (files : list File)
| DragOver
| DragLeave
| Drop (files : list File)
| ClickRemove
| ClickAnalyze
| FetchSettles (i : nat) (reply : Settled Response)
| Resumes (i : nat)
| TimerFires (i : nat)
| ReaderLoads (i : nat) (result : string).

Fixpoint removeNth {A} (i : nat) (l : list A) : list A :=
  match i, l with
  | _, [] => []
  | O, _ :: r => r
  | S j, x :: r => x :: removeNth j r
  end.

Fixpoint replaceNth {A} (i : nat) (x : A) (l : list A) : list A :=
  match i, l with
  | _, [] => []
  | O, _ :: r => x :: r
  | S j, y :: r => y :: replaceNth j x r
  end.

Definition onUi (f : State -> State) (w : World) : World :=
  {| ui := f (ui w); calls := calls w |}.

(** The [i]-th call goes on: it stays in the list while it is suspended
    and leaves it when it ends. *)
Definition resumed (i : nat) (r : State * option Suspended) (w : World) : World :=
  match r with
  | (s, Some k) => {| ui := s; calls := replaceNth i k (calls w) |}
  | (s, None) => {| ui := s; calls := removeNth i (calls w) |}
  end.

Definition isAwaitFetch (k : Suspended) : bool :=
  match k with AwaitFetch _ => true | _ => false end.

(** One handler runs.  [None]: the browser cannot deliver the event there
    (a disabled button receives no click; nothing is pending under that
    index). *)
Definition fire (e : Event) (w : World) : option World :=
  match e with
  | Change files => Some (onUi (handleFileSelect files) w)
  | DragOver => Some (onUi handleDragOver w)
  | DragLeave => Some (onUi handleDragLeave w)
  | Drop files => Some (onUi (handleFileDrop files) w)
  | ClickRemove => Some (onUi removeFile w)
  | ClickAnalyze =>
      if analyzeBtn_disabled (ui w) then None
      else match analyzeFile_call (ui w) with
           | (s, Some k) => Some {| ui := s; calls := calls w ++ [k] |}
           | (s, None) => Some {| ui := s; calls := calls w |}
           end
  | FetchSettles i reply =>
      match nth_error (calls w) i with
      | Some (AwaitFetch request) =>
          Some (resumed i (analyzeFile_resume (AwaitFetch request) reply (ui w)) w)
      | _ => None
      end
  | Resumes i =>
      match nth_error (calls w) i with
      | Some (AwaitFetch _) | None => None
      | Some k =>
          Some (resumed i (analyzeFile_resume k (Rejected (mkError Str.empty)) (ui w)) w)
      end
  | TimerFires i =>
      match nth_error (timers (ui w)) i with
      | Some t =>
          Some (onUi (fun s => removeAlert (target t)
                                 (set_timers (removeNth i (timers s)) s)) w)
      | None => None
      end
  | ReaderLoads i result =>
      match nth_error (readers (ui w)) i with
      | Some _ =>
          Some (onUi (fun s => reader_onload result
                                 (set_readers (removeNth i (readers s)) s)) w)
      | None => None
      end
  end.

Fixpoint run (events : list Event) (w : World) : option World :=
  match events with
  | [] => Some w
  | e :: rest =>
      match fire e w with
      | Some w' => run rest w'
      | None => None
      end
  end.

(** A world that some sequence of events reaches from a freshly constructed
    controller with nothing pending. *)
Definition start (page : State) : World :=
  {| ui := constructor page; calls := [] |}.

Definition reachable (page : State) (w : World) : Prop :=
  exists events, run events (start page) = Some w.

(** The analysis requests that have left and have not been answered. *)
Definition inFlight (w : World) : nat :=
  length (filter isAwaitFetch (calls w)).

(** ** Vocabulary of the properties *)

(** The state without its notification area: two states with the same image
    differ at most in the notifications shown, their timers and the identity
    of the next element. *)
Definition forgetAlerts (s : State) : State :=
  set_nextId 0 (set_timers [] (set_alertContainer [] s)).

(** The error notification with the given text, as the [id]-th element. *)
Definition errorAlert (id : nat) (text : string) : Alert :=
  {| alert_id := id; className := "alert alert-error"; textContent := text |}.

Definition successAlert (id : nat) (text : string) : Alert :=
  {| alert_id := id; className := "alert alert-success"; textContent := text |}.

(** The Empty state of the controller. *)
Definition Empty (s : State) : Prop :=
  currentFile s = None
  /\ filePreview s = []
  /\ analyzeBtn_disabled s = true
  /\ progressContainer_display s = "none"
  /\ resultsCard_display s = "none".



(** A page to run the examples on: nothing selected, nothing shown. *)
Definition blankPage : State :=
  {| currentFile := None;
     maxFileSize := 0;
     allowedFormats := [];
     uploadArea_dragOver := false;
     fileInput_value := Str.empty;
     fileInfo_display := "none";
     fileName_textContent := Str.empty;
     fileSize_textContent := None;
     filePreview := [];
     analyzeBtn_disabled := true;
     progressContainer_display := "none";
     progressFill_width := "0%";
     progressText_textContent := Str.empty;
     resultsCard_display := "none";
     resultsContent_innerHTML := Str.empty;
     alertContainer := [];
     timers := [];
     readers := [];
     network := [];
     console := [];
     nextId := 0 |}.

Definition fresh : State := constructor blankPage.

Definition scanPng : File :=
  {| name := "scan.png"; size := 2 * 1024 * 1024; type := "image/png" |}.

Definition hugeScan : File :=
  {| name := "huge.dcm"; size := 60 * 1024 * 1024; type := "application/dicom" |}.

Definition notes : File :=
  {| name := "notes.txt"; size := 12; type := "text/plain" |}.

(** A response with the given status whose body parses to [v]. *)
Definition respond (st : N) (v : value) : Settled Response :=
  Fulfilled {| status := st; json := Fulfilled v |}.

(** A response with the given status whose body is not JSON. *)
Definition respondGarbage (st : N) (parserMessage : string) : Settled Response :=
  Fulfilled {| status := st;
               json := Rejected {| error_name := "SyntaxError";
                                   message := parserMessage |} |}.

(** The state without its progress bar, the state of the analyze button and
    the list of requests sent: all that the [try] block of [analyzeFile]
    writes before it renders a result or throws. *)
Definition forgetProgress (s : State) : State :=
  set_network []
    (set_analyzeBtn_disabled false
       (set_progressText_textContent Str.empty
          (set_progressFill_width Str.empty
             (set_progressContainer_display Str.empty s)))).

(** The state in which the call waits for [fetch]. *)
Definition uploading (file : File) (s : State) : State :=
  let request := {| url := "/predict"; method := "POST"; body := [("file", file)] |} in
  (showProgress
   >> set_analyzeBtn_disabled true
   >> updateProgress 30 "Uploading to secure server..."
   >> (fun s => set_network (network s ++ [request]) s)) s.

(** What [showResults] writes for a label. *)
Definition rendered (label : string) : State -> State :=
  let isTumor := negb (String.eqb (Str.toLowerCase label) "notumor") in
  set_resultsContent_innerHTML
    (resultTemplate (resultClass isTumor) (resultIcon isTumor) (resultColor isTumor) label)
  >> set_resultsCard_display "block".

(** The error that lines 129-130 throw for a response that is not [ok]. *)
Definition serverError (response : Response) : Error :=
  match json response with
  | Rejected e => e
  | Fulfilled errorData =>
      match JS.get errorData "error" with
      | inl e => e
      | inr error =>
          match JS.toString (JS.or error (VString "Server error during analysis.")) with
          | inl e => e
          | inr m => mkError m
          end
      end
  end.

(** What a reply leads to: the error that reaches [catch], or the label
    that is rendered. *)
Definition verdict (reply : Settled Response) : Error + string :=
  match reply with
  | Rejected e => inl e
  | Fulfilled response =>
      if negb (ok response) then inl (serverError response)
      else match json response with
           | Rejected e => inl e
           | Fulfilled data =>
               match JS.get data "prediction" with
               | inl e => inl e
               | inr prediction =>
                   match JS.call_toLowerCase prediction, JS.toString prediction with
                   | inl e, _ => inl e
                   | inr _, inl e => inl e
                   | inr _, inr label => inr label
                   end
               end
           end
  end.

(** The controller with [scanPng] selected. *)
Definition selected : State := processFile scanPng fresh.

(** The request that [analyzeFile] sends for a file. *)
Definition predictRequest (file : File) : Request :=
  {| url := "/predict"; method := "POST"; body := [("file", file)] |}.

(** The state without all that [analyzeFile] may write: the progress bar,
    the analyze button, the results panel, the notification area, the
    requests sent and the console.  What is left is the selection: the
    file, its description, its preview and pending readers, the drop
    indicator and the configuration. *)
Definition forgetAnalysis (s : State) : State :=
  set_console []
    (set_resultsContent_innerHTML Str.empty
       (set_resultsCard_display Str.empty
          (forgetAlerts (forgetProgress s)))).

(** Every notification shown is younger than the next element and has a
    pending timer of 5000 ms that will remove it. *)
Definition notified (s : State) : Prop :=
  forall a, In a (alertContainer s) ->
    (alert_id a < nextId s)%nat
    /\ In {| ms := 5000; target := alert_id a |} (timers s).

(** An event that hands no file to [processFile]. *)
Definition quiet (e : Event) : bool :=
  match e with
  | Change (_ :: _) | Drop (_ :: _) => false
  | _ => true
  end.

(** At most one call of [analyzeFile] is suspended, and the analyze button
    is disabled while one is. *)
Definition exclusive (w : World) : Prop :=
  (length (calls w) <= 1)%nat
  /\ (calls w <> [] -> analyzeBtn_disabled (ui w) = true).

(** The label that a parsed body carries says which affordance is
    rendered. *)
Definition affordance (label : string) : string :=
  if Str.equalsIgnoreCase label "notumor"
  then resultHead "notumor" "fa-check-circle" "var(--success)"
  else resultHead "tumor" "fa-exclamation-triangle" "var(--warning)".

(** Worlds to run the examples on. *)
Definition idle : World := {| ui := selected; calls := [] |}.

Definition awaitingDelay : World :=
  {| ui := selected;
     calls := [AwaitDelay 500 (VObject [("prediction", VString "Glioma")])] |}.

(** ** Properties *)

Ltac open_state s := destruct s; cbn in *.

Section Selection.

Variable file : File.
Variable s : State.

Lemma validateFile_valid :
  valid (validateFile file s) = (size file <=? maxFileSize s).
Proof.
  unfold validateFile. rewrite N.leb_antisym.
  destruct (maxFileSize s <? size file); reflexivity.
Qed.

Lemma processFile_too_large :
  maxFileSize s < size file ->
  processFile file s = showAlert "File size exceeds 50MB limit." "error" s.
Proof.
  intros H. unfold processFile, validateFile.
  apply N.ltb_lt in H. rewrite H. reflexivity.
Qed.

Lemma processFile_accepted :
  size file <= maxFileSize s ->
  processFile file s =
  (set_currentFile (Some file) >> displayFileInfo file >> createFilePreview file
   >> enableAnalyzeButton >> hideResults) s.
Proof.
  intros H. unfold processFile, validateFile.
  apply N.ltb_ge in H. rewrite H. reflexivity.
Qed.

End Selection.

Lemma showAlert_frame (m t : string) (s : State) :
  forgetAlerts (showAlert m t s) = forgetAlerts s.
Proof. open_state s. reflexivity. Qed.

Lemma showAlert_alerts (m t : string) (s : State) :
  alertContainer (showAlert m t s) =
  (alertContainer s ++ [{| alert_id := nextId s; className := "alert alert-" ++ t;
                           textContent := m |}])%list.
Proof. open_state s. reflexivity. Qed.

Lemma showAlert_timers (m t : string) (s : State) :
  timers (showAlert m t s) = (timers s ++ [{| ms := 5000; target := nextId s |}])%list.
Proof. open_state s. reflexivity. Qed.

Lemma removeAlert_gone (id : nat) (s : State) (a : Alert) :
  In a (alertContainer (removeAlert id s)) -> alert_id a <> id.
Proof.
  open_state s. intros H. apply filter_In in H. destruct H as [_ H].
  apply negb_true_iff in H. now apply Nat.eqb_neq in H.
Qed.

(** The fields that [forgetAlerts] keeps, read off an equation between two
    images. *)
Lemma forgetAlerts_fields (s s' : State) :
  forgetAlerts s' = forgetAlerts s ->
  currentFile s' = currentFile s
  /\ filePreview s' = filePreview s
  /\ readers s' = readers s
  /\ analyzeBtn_disabled s' = analyzeBtn_disabled s
  /\ progressContainer_display s' = progressContainer_display s
  /\ resultsCard_display s' = resultsCard_display s
  /\ resultsContent_innerHTML s' = resultsContent_innerHTML s
  /\ network s' = network s.
Proof.
  destruct s, s'; cbn. intros H. injection H as -> -> -> -> -> -> -> -> -> ->
    -> -> -> -> -> -> -> ->. repeat split.
Qed.

Lemma nth_error_last {A} (l : list A) (x : A) :
  nth_error (l ++ [x]) (length l) = Some x.
Proof. induction l as [|y l IH]; [reflexivity | exact IH]. Qed.

(** C3.  A file larger than [maxFileSize] is rejected by [processFile]: an
    error notification is appended whose removal is scheduled 5000 ms later
    (and firing that timer takes it off the page), and nothing else changes:
    [currentFile], the preview and its pending readers, the state of the
    analyze button, the results panel and the requests sent are as before. *)
Theorem processFile_rejects_oversized (file : File) (s : State) :
  maxFileSize s < size file ->
  let s' := processFile file s in
  alertContainer s' =
    (alertContainer s ++ [errorAlert (nextId s) "File size exceeds 50MB limit."])%list
  /\ timers s' = (timers s ++ [{| ms := 5000; target := nextId s |}])%list
  /\ (forall pending, exists w',
        fire (TimerFires (length (timers s))) {| ui := s'; calls := pending |} = Some w'
        /\ forall a, In a (alertContainer (ui w')) -> alert_id a <> nextId s)
  /\ forgetAlerts s' = forgetAlerts s
  /\ currentFile s' = currentFile s
  /\ filePreview s' = filePreview s
  /\ readers s' = readers s
  /\ analyzeBtn_disabled s' = analyzeBtn_disabled s
  /\ resultsCard_display s' = resultsCard_display s
  /\ resultsContent_innerHTML s' = resultsContent_innerHTML s
  /\ network s' = network s.
Proof.
  intros Hbig s'. subst s'. rewrite (processFile_too_large _ _ Hbig).
  pose proof (showAlert_frame "File size exceeds 50MB limit." "error" s) as Hframe.
  pose proof (forgetAlerts_fields _ _ Hframe) as (Hc & Hp & Hr & Hb & _ & Hd & Hh & Hn).
  split; [apply showAlert_alerts|].
  split; [apply showAlert_timers|].
  split.
  - intros pending. unfold fire. cbn [ui].
    rewrite showAlert_timers, nth_error_last. eexists. split; [reflexivity|].
    cbn [ui onUi target]. intros a Ha. eapply removeAlert_gone. exact Ha.
  - repeat split; assumption.
Qed.

Lemma processFile_rejects_oversized_witness :
  maxFileSize fresh < size hugeScan
  /\ alertContainer (processFile hugeScan fresh) =
       [errorAlert 0 "File size exceeds 50MB limit."]
  /\ currentFile (processFile hugeScan fresh) = None
  /\ network (processFile hugeScan fresh) = [].
Proof.
  assert (H : maxFileSize fresh < size hugeScan) by reflexivity.
  split; [exact H|].
  pose proof (processFile_rejects_oversized hugeScan fresh H)
    as (Ha & _ & _ & _ & Hc & _ & _ & _ & _ & _ & Hn).
  split; [exact Ha|]. split; [exact Hc | exact Hn].
Defined.

Lemma processFile_ignores_allowedFormats (file : File) (formats : list string) (s : State) :
  processFile file (set_allowedFormats formats s)
  = set_allowedFormats formats (processFile file s).
Proof.
  destruct s. unfold processFile, validateFile. cbn.
  match goal with |- context [?a <? ?b] => destruct (a <? b) end.
  - reflexivity.
  - cbn. unfold createFilePreview.
    destruct (Str.startsWith (type file) "image/"); reflexivity.
Qed.

(** C4.  A file no larger than [maxFileSize] is accepted by [processFile],
    whatever its name and type: it becomes [currentFile], the analyze button
    is enabled and the results panel is hidden; no notification is shown,
    and [allowedFormats] has no part in it. *)
Theorem processFile_accepts (file : File) (s : State) :
  size file <= maxFileSize s ->
  let s' := processFile file s in
  valid (validateFile file s) = true
  /\ currentFile s' = Some file
  /\ analyzeBtn_disabled s' = false
  /\ resultsCard_display s' = "none"
  /\ alertContainer s' = alertContainer s
  /\ (forall formats,
        processFile file (set_allowedFormats formats s)
        = set_allowedFormats formats s').
Proof.
  intros Hfits s'. subst s'. split.
  - rewrite validateFile_valid. now apply N.leb_le.
  - rewrite (processFile_accepted _ _ Hfits).
    split; [|split; [|split; [|split]]].
    5: { intros formats. rewrite <- (processFile_accepted _ _ Hfits).
         apply processFile_ignores_allowedFormats. }
    all: destruct s; cbn; unfold createFilePreview;
      destruct (Str.startsWith (type file) "image/"); reflexivity.
Qed.

Lemma processFile_accepts_witness :
  size notes <= maxFileSize fresh
  /\ currentFile (processFile notes fresh) = Some notes
  /\ analyzeBtn_disabled (processFile notes fresh) = false.
Proof.
  assert (H : size notes <= maxFileSize fresh) by (vm_compute; discriminate).
  split; [exact H|].
  pose proof (processFile_accepts notes fresh H) as (_ & Hc & Hb & _).
  split; [exact Hc | exact Hb].
Defined.

(** C7.  [removeFile] leaves the controller in the Empty state whatever the
    state it starts from, ends normally, and doing it twice is the same as
    doing it once. *)
Theorem removeFile_empties (s : State) :
  Empty (removeFile s)
  /\ exec removeFile s = Normal tt (removeFile s)
  /\ removeFile (removeFile s) = removeFile s.
Proof.
  destruct s. unfold Empty. cbn. repeat split.
Qed.

(** ** The endings of [analyzeFile] *)

Lemma try_start_uploading (file : File) (s : State) :
  try_start file s
  = Normal (Some (AwaitFetch {| url := "/predict"; method := "POST";
                                body := [("file", file)] |}))
           (uploading file s).
Proof. reflexivity. Qed.

Lemma afterErrorJson_throws (response : Response) (s : State) :
  afterErrorJson response s = Thrown (serverError response) s.
Proof.
  unfold afterErrorJson, serverError, bind, awaited, eval, throw, ret.
  destruct (json response) as [errorData|e]; [|reflexivity].
  destruct (JS.get errorData "error") as [e|error]; [reflexivity|].
  destruct (JS.toString _); reflexivity.
Qed.

Lemma showResults_string (label : string) (s : State) :
  showResults (VString label) s = Normal tt (rendered label s).
Proof. reflexivity. Qed.

Lemma showResults_not_string (prediction : value) (s : State) :
  (forall label, prediction <> VString label) ->
  exists e, JS.call_toLowerCase prediction = inl e
            /\ error_name e = "TypeError"
            /\ showResults prediction s = Thrown e s.
Proof.
  intros Hns. unfold showResults, bind, eval, throw.
  destruct prediction; cbn;
    try (eexists; split; [reflexivity | split; reflexivity]).
  exfalso. eapply Hns. reflexivity.
Qed.

Lemma call_toLowerCase_string (prediction : value) (lowered : string) :
  JS.call_toLowerCase prediction = inr lowered ->
  exists label, prediction = VString label /\ lowered = Str.toLowerCase label.
Proof.
  destruct prediction; cbn; try discriminate.
  intros [= <-]. eexists. split; reflexivity.
Qed.

Lemma drive_suspended (n : nat) (reply : Settled Response) (s : State) (k : Suspended) :
  drive (S n) reply (s, Some k) = drive n reply (analyzeFile_resume k reply s).
Proof. reflexivity. Qed.

Lemma drive_ended (n : nat) (reply : Settled Response) (s : State) :
  drive n reply (s, None) = (s, None).
Proof. destruct n; reflexivity. Qed.

Lemma afterFetch_fulfilled (response : Response) (s : State) :
  afterFetch (Fulfilled response) s
  = Normal (Some (if negb (ok response) then AwaitErrorJson response
                  else AwaitDataJson response))
           (updateProgress 80 "AI model is analyzing the scan..." s).
Proof.
  unfold afterFetch, bind, awaited, exec, ret.
  destruct (negb (ok response)); reflexivity.
Qed.

Lemma afterFetch_rejected (e : Error) (s : State) :
  afterFetch (Rejected e) s = Thrown e s.
Proof. reflexivity. Qed.

Lemma afterDataJson_fulfilled (response : Response) (data : value) (s : State) :
  json response = Fulfilled data ->
  afterDataJson response s
  = Normal (Some (AwaitDelay 500 data)) (updateProgress 100 "Analysis complete!" s).
Proof. intros H. unfold afterDataJson. rewrite H. reflexivity. Qed.

Lemma afterDataJson_rejected (response : Response) (e : Error) (s : State) :
  json response = Rejected e -> afterDataJson response s = Thrown e s.
Proof. intros H. unfold afterDataJson. rewrite H. reflexivity. Qed.

(** Lines 137-140 either throw, with the progress bar hidden and nothing
    else written, or render the label and announce it. *)
Lemma afterDelay_cases (data : value) (s : State) :
  afterDelay data s =
  match
    match JS.get data "prediction" with
    | inl e => inl e
    | inr prediction =>
        match JS.call_toLowerCase prediction, JS.toString prediction with
        | inl e, _ => inl e
        | inr _, inl e => inl e
        | inr _, inr label => inr label
        end
    end
  with
  | inl e => Thrown e (hideProgress s)
  | inr label =>
      Normal None (showAlert "Analysis completed successfully!" "success"
                     (rendered label (hideProgress s)))
  end.
Proof.
  unfold afterDelay, bind, exec.
  destruct (JS.get data "prediction") as [e|prediction]; [reflexivity|].
  cbn [eval ret].
  destruct (JS.call_toLowerCase prediction) as [e|lowered] eqn:Hlow.
  - unfold showResults, bind. rewrite Hlow. reflexivity.
  - apply call_toLowerCase_string in Hlow. destruct Hlow as (label & -> & ->).
    reflexivity.
Qed.

Lemma catch_hideProgress (e : Error) (s : State) :
  catch e (hideProgress s) = catch e s.
Proof. destruct s; reflexivity. Qed.

(** Every call with a file selected ends in one of two shapes, told apart by
    [verdict]: through [catch] with the error, or after the rendering of the
    label; up to there only the progress bar, the button and the list of
    requests have changed. *)
Lemma analyzeFile_outcome (reply : Settled Response) (file : File) (s : State) :
  currentFile s = Some file ->
  exists mid,
    forgetProgress mid = forgetProgress s
    /\ drive 3 reply (analyzeFile_call s) =
       (match verdict reply with
        | inl e => finally (catch e mid)
        | inr label =>
            finally (showAlert "Analysis completed successfully!" "success"
                       (rendered label (hideProgress mid)))
        end, None).
Proof.
  intros Hfile. unfold analyzeFile_call. rewrite Hfile.
  rewrite try_start_uploading. cbn [guarded].
  rewrite drive_suspended. cbn [analyzeFile_resume].
  destruct reply as [response|e]; cbn [verdict].
  2: { rewrite afterFetch_rejected. cbn [guarded]. rewrite drive_ended.
       exists (uploading file s). split; [destruct s; reflexivity | reflexivity]. }
  rewrite afterFetch_fulfilled. cbn [guarded].
  set (mid80 := updateProgress 80 "AI model is analyzing the scan..." (uploading file s)).
  assert (H80 : forgetProgress mid80 = forgetProgress s)
    by (subst mid80; destruct s; reflexivity).
  destruct (negb (ok response)).
  - rewrite drive_suspended. cbn [analyzeFile_resume].
    rewrite afterErrorJson_throws. cbn [guarded]. rewrite drive_ended.
    exists mid80. split; [exact H80 | reflexivity].
  - rewrite drive_suspended. cbn [analyzeFile_resume].
    destruct (json response) as [data|e] eqn:Hjson.
    2: { rewrite (afterDataJson_rejected _ _ Hjson). cbn [guarded].
         rewrite drive_ended. exists mid80. split; [exact H80 | reflexivity]. }
    rewrite (afterDataJson_fulfilled _ _ Hjson). cbn [guarded].
    rewrite drive_suspended. cbn [analyzeFile_resume].
    rewrite afterDelay_cases.
    exists (updateProgress 100 "Analysis complete!" mid80).
    split; [subst mid80; destruct s; reflexivity|].
    match goal with
    | |- context [match ?v with inl _ => Thrown _ _ | inr _ => _ end] =>
        destruct v as [e|label]
    end; cbn [guarded drive]; [rewrite catch_hideProgress|]; reflexivity.
Qed.

(** A call always ends within its three [await]s. *)
Lemma analyzeFile_ends (reply : Settled Response) (s : State) :
  snd (drive 3 reply (analyzeFile_call s)) = None.
Proof.
  destruct (currentFile s) as [file|] eqn:Hfile.
  - destruct (analyzeFile_outcome reply _ Hfile) as (mid & _ & ->). reflexivity.
  - unfold analyzeFile_call. rewrite Hfile. reflexivity.
Qed.

Lemma analyzeFile_verdict (reply : Settled Response) (file : File) (s : State) :
  currentFile s = Some file ->
  exists mid,
    forgetProgress mid = forgetProgress s
    /\ analyzeFile reply s =
       match verdict reply with
       | inl e => finally (catch e mid)
       | inr label =>
           finally (showAlert "Analysis completed successfully!" "success"
                      (rendered label (hideProgress mid)))
       end.
Proof.
  intros Hfile. destruct (analyzeFile_outcome reply _ Hfile) as (mid & Hmid & Hrun).
  exists mid. split; [exact Hmid|]. unfold analyzeFile. rewrite Hrun. reflexivity.
Qed.

Lemma failure_shape (e : Error) (mid s : State) :
  forgetProgress mid = forgetProgress s ->
  let s' := finally (catch e mid) in
  progressContainer_display s' = "none"
  /\ analyzeBtn_disabled s' = false
  /\ alertContainer s' =
     (alertContainer s ++ [errorAlert (nextId s) ("Analysis failed: " ++ message e)])%list
  /\ timers s' = (timers s ++ [{| ms := 5000; target := nextId s |}])%list
  /\ console s' = (console s ++ [e])%list
  /\ resultsCard_display s' = resultsCard_display s
  /\ resultsContent_innerHTML s' = resultsContent_innerHTML s
  /\ currentFile s' = currentFile s
  /\ filePreview s' = filePreview s.
Proof.
  destruct s, mid; cbn. intros H.
  injection H as -> -> -> -> -> -> -> -> -> -> -> -> -> -> -> ->.
  repeat split.
Qed.

Lemma success_shape (label : string) (mid s : State) :
  forgetProgress mid = forgetProgress s ->
  let s' := finally (showAlert "Analysis completed successfully!" "success"
                       (rendered label (hideProgress mid))) in
  progressContainer_display s' = "none"
  /\ analyzeBtn_disabled s' = false
  /\ alertContainer s' =
     (alertContainer s
      ++ [successAlert (nextId s) "Analysis completed successfully!"])%list
  /\ resultsCard_display s' = "block"
  /\ resultsContent_innerHTML s' = resultsContent_innerHTML (rendered label s)
  /\ currentFile s' = currentFile s
  /\ filePreview s' = filePreview s.
Proof.
  destruct s, mid; cbn. intros H.
  injection H as -> -> -> -> -> -> -> -> -> -> -> -> -> -> -> ->.
  repeat split.
Qed.


Lemma guarded_ended (r : Outcome (option Suspended)) (s' : State) :
  guarded r = (s', None) -> analyzeBtn_disabled s' = false.
Proof.
  destruct r as [[k|] s|e s]; cbn; intros H; [discriminate| |];
    injection H as <-; [destruct s | destruct (catch e s)]; reflexivity.
Qed.

Lemma replaceNth_length {A} (i : nat) (x : A) (l : list A) :
  length (replaceNth i x l) = length l.
Proof.
  revert i. induction l as [|y l IH]; intros [|i]; cbn; try reflexivity.
  now rewrite IH.
Qed.

Lemma resumed_shrinks (i : nat) (s : State) (o : option Suspended) (w : World) :
  (length (calls (resumed i (s, o) w)) < length (calls w))%nat ->
  o = None /\ ui (resumed i (s, o) w) = s.
Proof.
  destruct o as [k|]; cbn; intros Hlen.
  - rewrite replaceNth_length in Hlen. lia.
  - split; reflexivity.
Qed.

(** In the event loop: the handler in which a suspended call ends leaves the
    analyze button enabled, whatever ran before it. *)
Lemma fire_call_ends_enabled (e : Event) (w w' : World) :
  fire e w = Some w' ->
  (length (calls w') < length (calls w))%nat ->
  analyzeBtn_disabled (ui w') = false.
Proof.
  destruct e; cbn [fire]; intros Hfire Hlen.
  1-5: injection Hfire as <-; cbn in Hlen; lia.
  - destruct (analyzeBtn_disabled (ui w)); [discriminate|].
    destruct (analyzeFile_call (ui w)) as [s [k|]]; injection Hfire as <-;
      cbn in Hlen; [rewrite length_app in Hlen; cbn in Hlen|]; lia.
  - destruct (nth_error (calls w) i) as [[request| | |]|]; try discriminate.
    injection Hfire as <-. cbn [analyzeFile_resume] in *.
    destruct (guarded (afterFetch reply (ui w))) as [s o] eqn:Hg.
    apply resumed_shrinks in Hlen. destruct Hlen as [-> ->].
    eapply guarded_ended. exact Hg.
  - destruct (nth_error (calls w) i) as [k|]; [|discriminate].
    destruct k; try discriminate; injection Hfire as <-;
      cbn [analyzeFile_resume] in *;
      match type of Hlen with
      | context [resumed _ (guarded ?m) _] =>
          destruct (guarded m) as [s o] eqn:Hg
      end;
      apply resumed_shrinks in Hlen; destruct Hlen as [-> ->];
      eapply guarded_ended; exact Hg.
  - destruct (nth_error (timers (ui w)) i); [|discriminate].
    injection Hfire as <-. cbn in Hlen. lia.
  - destruct (nth_error (readers (ui w)) i); [|discriminate].
    injection Hfire as <-. cbn in Hlen. lia.
Qed.

(** C2.  When a call of [analyzeFile] that found a file ends, the analyze
    button is enabled: after a rendered result, after a rejected [fetch],
    after a response that is not [ok], after any exception in the handling
    of the response.  This holds for the call run on its own and, from any
    state that other handlers may have left, for the segment in which a
    suspended call ends. *)
Theorem analyzeFile_reenables_trigger (reply : Settled Response) (file : File) (s : State) :
  currentFile s = Some file ->
  analyzeBtn_disabled (analyzeFile reply s) = false
  /\ (forall k r t t',
        analyzeFile_resume k r t = (t', None) -> analyzeBtn_disabled t' = false).
Proof.
  intros Hfile. split.
  - destruct (analyzeFile_verdict reply _ Hfile) as (mid & Hmid & ->).
    destruct (verdict reply) as [e|label].
    + apply (failure_shape e _ _ Hmid).
    + apply (success_shape label _ _ Hmid).
  - intros k r t t'. destruct k; cbn [analyzeFile_resume]; apply guarded_ended.
Qed.

Lemma analyzeFile_reenables_trigger_witness :
  currentFile selected = Some scanPng
  /\ analyzeBtn_disabled
       (analyzeFile (Rejected (TypeError "Failed to fetch")) selected) = false.
Proof.
  assert (H : currentFile selected = Some scanPng) by reflexivity.
  split; [exact H|].
  exact (proj1 (analyzeFile_reenables_trigger
                  (Rejected (TypeError "Failed to fetch")) selected H)).
Defined.

(** C8.  Called with no file selected, [analyzeFile] adds the error
    notification and returns at once: no call is left suspended, no request
    is sent, and apart from the notification area the state is as it was
    (progress indicator, analyze button, preview and results panel
    included). *)
Theorem analyzeFile_without_file (reply : Settled Response) (s : State) :
  currentFile s = None ->
  let s' := analyzeFile reply s in
  analyzeFile_call s = (s', None)
  /\ alertContainer s' =
     (alertContainer s ++ [errorAlert (nextId s) "No file selected for analysis"])%list
  /\ forgetAlerts s' = forgetAlerts s
  /\ network s' = network s
  /\ progressContainer_display s' = progressContainer_display s
  /\ analyzeBtn_disabled s' = analyzeBtn_disabled s
  /\ filePreview s' = filePreview s
  /\ resultsCard_display s' = resultsCard_display s.
Proof.
  intros Hnone s'. subst s'. unfold analyzeFile, analyzeFile_call.
  rewrite Hnone. rewrite drive_ended. cbn [fst].
  pose proof (showAlert_frame "No file selected for analysis" "error" s) as Hframe.
  pose proof (forgetAlerts_fields _ _ Hframe) as (_ & Hp & _ & Hb & Hg & Hd & _ & Hn).
  repeat split; try assumption. apply showAlert_alerts.
Qed.

Lemma analyzeFile_without_file_witness :
  currentFile fresh = None
  /\ alertContainer (analyzeFile (Rejected (TypeError "Failed to fetch")) fresh)
     = [errorAlert 0 "No file selected for analysis"]
  /\ network (analyzeFile (Rejected (TypeError "Failed to fetch")) fresh) = [].
Proof.
  assert (H : currentFile fresh = None) by reflexivity.
  split; [exact H|].
  pose proof (analyzeFile_without_file (Rejected (TypeError "Failed to fetch")) fresh H)
    as (_ & Ha & _ & Hn & _).
  split; [exact Ha | exact Hn].
Defined.

(** ** Responses that are not [ok] *)

Lemma verdict_not_ok (response : Response) :
  ok response = false -> verdict (Fulfilled response) = inl (serverError response).
Proof. intros H. cbn. rewrite H. reflexivity. Qed.

Lemma truthy_nonempty_string (m : string) :
  m <> Str.empty -> JS.truthy (VString m) = true.
Proof.
  intros H. cbn. destruct (String.eqb_spec m Str.empty); [contradiction | reflexivity].
Qed.

(** The value of [errorData.error] for a parsed body that is neither [null]
    nor [undefined]: the own property, [undefined] when there is none. *)
Lemma get_error_field (errorData : value) :
  errorData <> VNull ->
  errorData <> VUndefined ->
  JS.get errorData "error" =
  inr (match errorData with
       | VObject props =>
           match JS.lookup "error" props with
           | Some x => x
           | None => VUndefined
           end
       | _ => VUndefined
       end).
Proof. destruct errorData; cbn; try reflexivity; intros H1 H2; congruence. Qed.

(** C5, as the code has it.  For a response that is not [ok], [analyzeFile]
    hides the progress indicator and adds one error notification, whose text
    is ["Analysis failed: "] followed by:
    - the message of the parser's own error when the body does not parse;
    - the message of the [TypeError] of reading a property of [null] when
      the body parses to [null];
    - otherwise, with [error] the body's own [error] field ([undefined] when
      there is none): ["Server error during analysis."] when [error] is
      falsy, so when it is absent; [error] converted to a string when it is
      truthy, which for a non-empty string is the string itself; the message
      of the [TypeError] of the conversion when that throws. *)
Theorem analyzeFile_server_error (response : Response) (file : File) (s : State) :
  currentFile s = Some file ->
  ok response = false ->
  let s' := analyzeFile (Fulfilled response) s in
  progressContainer_display s' = "none"
  /\ exists text,
       alertContainer s' =
         (alertContainer s ++ [errorAlert (nextId s) ("Analysis failed: " ++ text)])%list
       /\ (forall e, json response = Rejected e -> text = message e)
       /\ (json response = Fulfilled VNull ->
           text = "Cannot read properties of null (reading 'error')")
       /\ (forall errorData,
             json response = Fulfilled errorData ->
             errorData <> VNull ->
             errorData <> VUndefined ->
             exists error,
               JS.get errorData "error" = inr error
               /\ error = match errorData with
                          | VObject props =>
                              match JS.lookup "error" props with
                              | Some x => x
                              | None => VUndefined
                              end
                          | _ => VUndefined
                          end
               /\ (JS.truthy error = false -> text = "Server error during analysis.")
               /\ (forall m, error = VString m -> m <> Str.empty -> text = m)
               /\ (JS.truthy error = true ->
                   forall m, JS.toString error = inr m -> text = m)
               /\ (JS.truthy error = true ->
                   forall e, JS.toString error = inl e -> text = message e)).
Proof.
  intros Hfile Hok s'. subst s'.
  destruct (analyzeFile_verdict (Fulfilled response) _ Hfile) as (mid & Hmid & ->).
  rewrite (verdict_not_ok _ Hok).
  destruct (failure_shape (serverError response) _ _ Hmid) as (Hp & _ & Ha & _).
  split; [exact Hp|].
  exists (message (serverError response)). split; [exact Ha|].
  unfold serverError. split; [|split].
  - intros e ->. reflexivity.
  - intros ->. reflexivity.
  - intros errorData -> Hnull Hundef.
    rewrite (get_error_field Hnull Hundef).
    eexists. split; [reflexivity|]. split; [reflexivity|].
    set (error := match errorData with
                  | VObject props =>
                      match JS.lookup "error" props with
                      | Some x => x
                      | None => VUndefined
                      end
                  | _ => VUndefined
                  end).
    unfold JS.or. repeat split.
    + intros Hfalsy. rewrite Hfalsy. reflexivity.
    + intros m Hm Hne. rewrite Hm, (truthy_nonempty_string Hne). reflexivity.
    + intros Htruthy m Hs. rewrite Htruthy, Hs. reflexivity.
    + intros Htruthy e Hs. rewrite Htruthy, Hs. reflexivity.
Qed.

Lemma analyzeFile_server_error_witness :
  currentFile selected = Some scanPng
  /\ ok {| status := 500;
           json := Fulfilled (VObject [("error", VString "model unavailable")]) |} = false
  /\ alertContainer
       (analyzeFile (respond 500 (VObject [("error", VString "model unavailable")]))
                    selected)
     = [errorAlert 0 "Analysis failed: model unavailable"].
Proof.
  assert (H : currentFile selected = Some scanPng) by reflexivity.
  assert (Hok : ok {| status := 500;
                      json := Fulfilled (VObject [("error", VString "model unavailable")]) |}
                = false) by reflexivity.
  split; [exact H|]. split; [exact Hok|].
  destruct (analyzeFile_server_error _ selected H Hok) as (_ & text & Ha & _ & _ & Hc).
  destruct (Hc (VObject [("error", VString "model unavailable")]) eq_refl)
    as (error & _ & Herr & _ & Hstring & _); [discriminate | discriminate |].
  fold (respond 500 (VObject [("error", VString "model unavailable")])) in Ha.
  rewrite Ha.
  rewrite (Hstring "model unavailable" Herr); [reflexivity | discriminate].
Defined.

(** C5 as stated fails where the body does not parse: the notification
    carries the parser's message, not the generic one that an absent
    [error] field gets, and two bodies that fail differently are announced
    differently. *)
Lemma analyzeFile_unparseable_body_not_generic :
  ok {| status := 500;
        json := Rejected {| error_name := "SyntaxError";
                            message := "Unexpected end of JSON input" |} |} = false
  /\ map textContent
       (alertContainer (analyzeFile (respond 500 (VObject [])) selected))
     = ["Analysis failed: Server error during analysis."]
  /\ map textContent
       (alertContainer
          (analyzeFile (respondGarbage 500 "Unexpected end of JSON input") selected))
     = ["Analysis failed: Unexpected end of JSON input"]
  /\ map textContent
       (alertContainer
          (analyzeFile (respondGarbage 500 "Unexpected token '<'") selected))
     = ["Analysis failed: Unexpected token '<'"]
  /\ ~ (forall parserMessage,
          map textContent
            (alertContainer (analyzeFile (respondGarbage 500 parserMessage) selected))
          = map textContent
              (alertContainer (analyzeFile (respond 500 (VObject [])) selected))).
Proof.
  split; [reflexivity|]. split; [reflexivity|]. split; [reflexivity|].
  split; [reflexivity|].
  intros H. specialize (H "Unexpected end of JSON input"). discriminate H.
Qed.

(** ** Responses without a label *)

Lemma get_throws_TypeError (v : value) (key : string) (e : Error) :
  JS.get v key = inl e -> error_name e = "TypeError".
Proof. destruct v; cbn; intros H; try discriminate; injection H as <-; reflexivity. Qed.

Lemma call_toLowerCase_throws (prediction : value) :
  (forall label, prediction <> VString label) ->
  exists e, JS.call_toLowerCase prediction = inl e /\ error_name e = "TypeError".
Proof.
  intros Hns. destruct prediction; cbn;
    try (eexists; split; reflexivity).
  exfalso. eapply Hns. reflexivity.
Qed.

(** C10, as the code has it.  For an [ok] response whose body parses to a
    value without a string [prediction], reading the label throws a
    [TypeError] that is caught: the results panel is left exactly as it was
    before the call (its visibility and its content), the progress indicator
    ends hidden, the analyze button is enabled, the error is logged and one
    error notification is added. *)
Theorem analyzeFile_missing_prediction
    (response : Response) (data : value) (file : File) (s : State) :
  currentFile s = Some file ->
  ok response = true ->
  json response = Fulfilled data ->
  (forall label, JS.get data "prediction" <> inr (VString label)) ->
  let s' := analyzeFile (Fulfilled response) s in
  resultsCard_display s' = resultsCard_display s
  /\ resultsContent_innerHTML s' = resultsContent_innerHTML s
  /\ progressContainer_display s' = "none"
  /\ analyzeBtn_disabled s' = false
  /\ exists e,
       error_name e = "TypeError"
       /\ console s' = (console s ++ [e])%list
       /\ alertContainer s' =
          (alertContainer s
           ++ [errorAlert (nextId s) ("Analysis failed: " ++ message e)])%list.
Proof.
  intros Hfile Hok Hjson Hnolabel s'. subst s'.
  destruct (analyzeFile_verdict (Fulfilled response) _ Hfile) as (mid & Hmid & ->).
  assert (Hv : exists e, verdict (Fulfilled response) = inl e
                         /\ error_name e = "TypeError").
  { cbn. rewrite Hok, Hjson. cbn.
    destruct (JS.get data "prediction") as [e|prediction] eqn:Hget.
    - exists e. split; [reflexivity|]. eapply get_throws_TypeError; eassumption.
    - destruct (@call_toLowerCase_throws prediction) as (e & -> & He).
      + intros label ->. eapply Hnolabel. reflexivity.
      + exists e. split; [reflexivity | exact He]. }
  destruct Hv as (e & -> & He).
  destruct (failure_shape e _ _ Hmid) as (Hp & Hb & Ha & _ & Hc & Hd & Hh & _).
  repeat split; try assumption.
  exists e. repeat split; assumption.
Qed.

Lemma analyzeFile_missing_prediction_witness :
  currentFile selected = Some scanPng
  /\ ok {| status := 200; json := Fulfilled (VObject []) |} = true
  /\ resultsCard_display (analyzeFile (respond 200 (VObject [])) selected) = "none"
  /\ analyzeBtn_disabled (analyzeFile (respond 200 (VObject [])) selected) = false.
Proof.
  assert (H : currentFile selected = Some scanPng) by reflexivity.
  assert (Hok : ok {| status := 200; json := Fulfilled (VObject []) |} = true)
    by reflexivity.
  split; [exact H|]. split; [exact Hok|].
  assert (Hno : forall label,
             JS.get (VObject []) "prediction" <> inr (VString label))
    by (intros label; cbn; discriminate).
  destruct (analyzeFile_missing_prediction _ selected H Hok eq_refl Hno)
    as (Hd & _ & _ & Hb & _).
  split; [exact Hd | exact Hb].
Defined.

(** C10 as stated fails after an earlier success: [analyzeFile] never hides
    the results panel, so the panel goes on showing the earlier label while
    the error is announced. *)
Lemma analyzeFile_stale_result_stays :
  let shown := analyzeFile
                 (respond 200 (VObject [("prediction", VString "Glioma")])) selected in
  let s' := analyzeFile (respond 200 (VObject [])) shown in
  currentFile shown = Some scanPng
  /\ analyzeBtn_disabled shown = false
  /\ resultsCard_display s' = "block"
  /\ resultsContent_innerHTML s' =
     resultTemplate "tumor" "fa-exclamation-triangle" "var(--warning)" "Glioma"
  /\ map className (alertContainer s') = ["alert alert-success"; "alert alert-error"]
  /\ ~ (resultsCard_display s' = "none").
Proof.
  cbv zeta. do 5 (split; [reflexivity|]).
  intros H. discriminate H.
Qed.

(** ** The rendering of a label *)

Lemma equalsIgnoreCase_toLowerCase (a b : string) :
  Str.equalsIgnoreCase a b = String.eqb (Str.toLowerCase a) (Str.toLowerCase b).
Proof.
  revert b. induction a as [|x a IH]; intros [|y b]; cbn; try reflexivity.
  rewrite IH. reflexivity.
Qed.

Lemma isTumor_equalsIgnoreCase (label : string) :
  negb (String.eqb (Str.toLowerCase label) "notumor")
  = negb (Str.equalsIgnoreCase label "notumor").
Proof. rewrite equalsIgnoreCase_toLowerCase. reflexivity. Qed.

(** C6, as the code has it.  [showResults] renders the positive affordance
    (class [notumor], the check icon, the success colour) exactly when the
    label equals ["notumor"] up to the case of its letters, and the warning
    affordance (class [tumor], the triangle, the warning colour) otherwise;
    in both branches the label is put into the markup as it is, between a
    head and a tail that do not depend on it, and the panel is shown. *)
Theorem showResults_affordance (label : string) (s : State) :
  let positive := resultHead "notumor" "fa-check-circle" "var(--success)" in
  let warning := resultHead "tumor" "fa-exclamation-triangle" "var(--warning)" in
  positive <> warning
  /\ exists s',
       showResults (VString label) s = Normal tt s'
       /\ resultsCard_display s' = "block"
       /\ resultsContent_innerHTML s' =
          (if Str.equalsIgnoreCase label "notumor" then positive else warning)
          ++ label ++ resultTail.
Proof.
  cbv zeta. split; [vm_compute; discriminate|].
  exists (rendered label s). split; [apply showResults_string|].
  unfold rendered. rewrite isTumor_equalsIgnoreCase.
  destruct s; cbn [seq set_resultsCard_display set_resultsContent_innerHTML
                   resultsCard_display resultsContent_innerHTML].
  split; [reflexivity|].
  destruct (Str.equalsIgnoreCase label "notumor"); reflexivity.
Qed.

(** C6 as stated fails on what the user reads: the paragraph of the label is
    styled [text-transform: capitalize], so the label ["notumor"] is painted
    ["Notumor"]. *)
Lemma showResults_label_painted_capitalized :
  exists s',
    showResults (VString "notumor") fresh = Normal tt s'
    /\ resultsContent_innerHTML s' =
       resultHead "notumor" "fa-check-circle" "var(--success)"
       ++ "notumor" ++ resultTail
    /\ paintedLabel "var(--success)" "notumor" = "Notumor"
    /\ paintedLabel "var(--success)" "notumor" <> "notumor".
Proof.
  exists (rendered "notumor" fresh).
  split; [reflexivity|]. split; [reflexivity|].
  split; [reflexivity | discriminate].
Qed.

(** ** Requests in flight *)

(** C9 fails on the code.  [processFile] enables the analyze button whether
    or not a call of [analyzeFile] is suspended, so a file selected while a
    request is in flight lets a second request leave: after these four
    events two requests are in flight. *)
Theorem second_request_while_first_in_flight (page : State) :
  exists w,
    run [Change [scanPng]; ClickAnalyze; Change [notes]; ClickAnalyze] (start page)
    = Some w
    /\ reachable page w
    /\ calls w =
       [AwaitFetch {| url := "/predict"; method := "POST"; body := [("file", scanPng)] |};
        AwaitFetch {| url := "/predict"; method := "POST"; body := [("file", notes)] |}]
    /\ inFlight w = 2%nat.
Proof.
  destruct page. eexists. split; [reflexivity|]. split.
  - exists [Change [scanPng]; ClickAnalyze; Change [notes]; ClickAnalyze].
    reflexivity.
  - split; reflexivity.
Qed.

(** ** How a handler of [analyzeFile] leaves the state *)

Lemma analyzeFile_call_shape (s : State) :
  (currentFile s = None
   /\ analyzeFile_call s = (showAlert "No file selected for analysis" "error" s, None))
  \/ (exists file,
        currentFile s = Some file
        /\ analyzeFile_call s = (uploading file s, Some (AwaitFetch (predictRequest file)))).
Proof.
  unfold analyzeFile_call. destruct (currentFile s) as [file|].
  - right. exists file. split; [reflexivity|]. rewrite try_start_uploading. reflexivity.
  - left. split; reflexivity.
Qed.

(** A suspended call that goes on either moves the progress bar and waits
    again, or ends through [catch] and [finally], or renders a label and
    ends through [finally]. *)
Lemma analyzeFile_resume_shape (k : Suspended) (reply : Settled Response) (s : State) :
  (exists p t k', analyzeFile_resume k reply s = (updateProgress p t s, Some k'))
  \/ (exists e, analyzeFile_resume k reply s = (finally (catch e s), None))
  \/ (exists label,
        analyzeFile_resume k reply s =
        (finally (showAlert "Analysis completed successfully!" "success"
                    (rendered label (hideProgress s))), None)).
Proof.
  destruct k as [request|response|response|d data]; cbn [analyzeFile_resume].
  - destruct reply as [response|e].
    + left. rewrite afterFetch_fulfilled. do 3 eexists. reflexivity.
    + right. left. exists e. reflexivity.
  - right. left. rewrite afterErrorJson_throws. eexists. reflexivity.
  - destruct (json response) as [data|e] eqn:Hjson.
    + left. rewrite (afterDataJson_fulfilled _ _ Hjson). do 3 eexists. reflexivity.
    + right. left. rewrite (afterDataJson_rejected _ _ Hjson). exists e. reflexivity.
  - rewrite afterDelay_cases.
    match goal with
    | |- context [match ?v with inl _ => Thrown _ _ | inr _ => _ end] =>
        destruct v as [e|label]
    end; cbn [guarded].
    + right. left. exists e. rewrite catch_hideProgress. reflexivity.
    + right. right. exists label. reflexivity.
Qed.

Section ResumeInvariant.

(** A property of the state that the statements of a resumed call keep. *)
Variable J : State -> Prop.
Hypothesis J_updateProgress : forall p t s, J s -> J (updateProgress p t s).
Hypothesis J_hideProgress : forall s, J s -> J (hideProgress s).
Hypothesis J_console_error : forall e s, J s -> J (console_error e s).
Hypothesis J_showAlert : forall m t s, J s -> J (showAlert m t s).
Hypothesis J_disabled : forall b s, J s -> J (set_analyzeBtn_disabled b s).
Hypothesis J_rendered : forall label s, J s -> J (rendered label s).

Lemma resume_keeps (k : Suspended) (reply : Settled Response) (s : State) :
  J s -> J (fst (analyzeFile_resume k reply s)).
Proof.
  intros HJ.
  destruct (analyzeFile_resume_shape k reply s)
    as [(p & t & k' & ->)|[(e & ->)|(label & ->)]]; cbn [fst].
  - now apply J_updateProgress.
  - unfold finally, catch, seq.
    now apply J_disabled, J_showAlert, J_console_error, J_hideProgress.
  - unfold finally.
    now apply J_disabled, J_showAlert, J_rendered, J_hideProgress.
Qed.

Lemma drive_keeps (n : nat) (reply : Settled Response) (r : State * option Suspended) :
  J (fst r) -> J (fst (drive n reply r)).
Proof.
  revert r. induction n as [|n IH]; intros [s [k|]] HJ; cbn [drive]; try exact HJ.
  apply IH. now apply resume_keeps.
Qed.

End ResumeInvariant.

Section HandlerInvariant.

(** A property of the state that every statement of every handler keeps:
    then every event keeps it. *)
Variable J : State -> Prop.
Hypothesis J_updateProgress : forall p t s, J s -> J (updateProgress p t s).
Hypothesis J_hideProgress : forall s, J s -> J (hideProgress s).
Hypothesis J_console_error : forall e s, J s -> J (console_error e s).
Hypothesis J_showAlert : forall m t s, J s -> J (showAlert m t s).
Hypothesis J_disabled : forall b s, J s -> J (set_analyzeBtn_disabled b s).
Hypothesis J_rendered : forall label s, J s -> J (rendered label s).
Hypothesis J_processFile : forall file s, J s -> J (processFile file s).
Hypothesis J_dragOver : forall b s, J s -> J (set_uploadArea_dragOver b s).
Hypothesis J_removeFile : forall s, J s -> J (removeFile s).
Hypothesis J_uploading : forall file s, J s -> J (uploading file s).
Hypothesis J_timer : forall i t s,
  nth_error (timers s) i = Some t -> J s ->
  J (removeAlert (target t) (set_timers (removeNth i (timers s)) s)).
Hypothesis J_reader : forall i result s,
  J s -> J (reader_onload result (set_readers (removeNth i (readers s)) s)).

Lemma resumed_ui (i : nat) (r : State * option Suspended) (w : World) :
  ui (resumed i r w) = fst r.
Proof. destruct r as [s [k|]]; reflexivity. Qed.

Lemma fire_keeps (e : Event) (w w' : World) :
  fire e w = Some w' -> J (ui w) -> J (ui w').
Proof.
  pose proof (@resume_keeps J J_updateProgress J_hideProgress J_console_error
                J_showAlert J_disabled J_rendered) as Hresume.
  destruct e; cbn [fire]; intros Hfire HJ.
  - injection Hfire as <-. cbn. destruct files; cbn; [exact HJ | now apply J_processFile].
  - injection Hfire as <-. now apply J_dragOver.
  - injection Hfire as <-. now apply J_dragOver.
  - injection Hfire as <-. cbn. unfold handleFileDrop.
    destruct files; [|apply J_processFile]; now apply J_dragOver.
  - injection Hfire as <-. now apply J_removeFile.
  - destruct (analyzeBtn_disabled (ui w)); [discriminate|].
    destruct (analyzeFile_call_shape (ui w)) as [[_ Heq]|(file & _ & Heq)];
      rewrite Heq in Hfire; injection Hfire as <-; cbn;
      [now apply J_showAlert | now apply J_uploading].
  - destruct (nth_error (calls w) i) as [[request| | |]|]; try discriminate.
    injection Hfire as <-. rewrite resumed_ui.
    exact (Hresume (AwaitFetch request) reply (ui w) HJ).
  - destruct (nth_error (calls w) i) as [k|]; [|discriminate].
    destruct k; try discriminate; injection Hfire as <-; rewrite resumed_ui;
      match goal with
      | |- J (fst (analyzeFile_resume ?k ?r ?s)) => exact (Hresume k r s HJ)
      | |- J (fst (guarded (afterErrorJson ?x ?s))) =>
          exact (Hresume (AwaitErrorJson x) (Rejected (mkError Str.empty)) s HJ)
      | |- J (fst (guarded (afterDataJson ?x ?s))) =>
          exact (Hresume (AwaitDataJson x) (Rejected (mkError Str.empty)) s HJ)
      | |- J (fst (guarded (afterDelay ?x ?s))) =>
          exact (Hresume (AwaitDelay 0 x) (Rejected (mkError Str.empty)) s HJ)
      end.
  - destruct (nth_error (timers (ui w)) i) as [t|] eqn:Ht; [|discriminate].
    injection Hfire as <-. cbn. now apply J_timer.
  - destruct (nth_error (readers (ui w)) i); [|discriminate].
    injection Hfire as <-. cbn. now apply J_reader.
Qed.

Lemma run_keeps (events : list Event) (w w' : World) :
  run events w = Some w' -> J (ui w) -> J (ui w').
Proof.
  revert w. induction events as [|e events IH]; intros w; cbn [run].
  - intros [= <-] HJ. exact HJ.
  - destruct (fire e w) as [w1|] eqn:Hfire; [|discriminate].
    intros Hrun HJ. apply (IH _ Hrun). exact (fire_keeps _ _ Hfire HJ).
Qed.

End HandlerInvariant.

(** ** Selecting a file *)

(** X2.  The preview of an accepted file.  A file whose type starts with
    [image/] is handed to a reader and the preview pane keeps what it
    showed; any other file gets the placeholder with its name at once and
    no reader is started. *)
Theorem processFile_previews (file : File) (s : State) :
  size file <= maxFileSize s ->
  let s' := processFile file s in
  if Str.startsWith (type file) "image/"
  then filePreview s' = filePreview s /\ readers s' = (readers s ++ [file])%list
  else filePreview s' = [Markup (nonImagePreview (name file))]
       /\ readers s' = readers s.
Proof.
  intros Hfits s'. subst s'. rewrite (processFile_accepted _ _ Hfits).
  destruct s; cbn; unfold createFilePreview;
    destruct (Str.startsWith (type file) "image/"); split; reflexivity.
Qed.

Lemma processFile_previews_witness :
  size notes <= maxFileSize fresh
  /\ filePreview (processFile notes fresh) = [Markup (nonImagePreview "notes.txt")]
  /\ readers (processFile notes fresh) = [].
Proof.
  assert (H : size notes <= maxFileSize fresh) by (vm_compute; discriminate).
  split; [exact H|].
  exact (processFile_previews notes fresh H).
Defined.

Lemma dragOver_maxFileSize (b : bool) (s : State) :
  maxFileSize (set_uploadArea_dragOver b s) = maxFileSize s.
Proof. destruct s; reflexivity. Qed.

(** X3.  A drop is judged by its first file alone.  When that file is too
    large nothing is selected, whatever the files that follow it: the drop
    indicator is cleared, the size error is announced and [currentFile] is
    as before. *)
Theorem handleFileDrop_oversized_first (file : File) (rest : list File) (s : State) :
  maxFileSize s < size file ->
  let s' := handleFileDrop (file :: rest) s in
  s' = handleFileDrop [file] s
  /\ currentFile s' = currentFile s
  /\ uploadArea_dragOver s' = false
  /\ alertContainer s' =
     (alertContainer s ++ [errorAlert (nextId s) "File size exceeds 50MB limit."])%list
  /\ network s' = network s.
Proof.
  intros Hbig s'. subst s'. split; [reflexivity|].
  unfold handleFileDrop. rewrite processFile_too_large.
  - destruct s; cbn. repeat split.
  - rewrite dragOver_maxFileSize. exact Hbig.
Qed.

Lemma handleFileDrop_oversized_first_witness :
  maxFileSize selected < size hugeScan
  /\ currentFile (handleFileDrop [hugeScan; notes] selected) = Some scanPng.
Proof.
  assert (H : maxFileSize selected < size hugeScan) by reflexivity.
  split; [exact H|].
  pose proof (handleFileDrop_oversized_first hugeScan [notes] selected H)
    as (_ & Hc & _).
  exact Hc.
Defined.

(** ** What [analyzeFile] writes and what it leaves alone *)

Lemma forgetAnalysis_fields (s s' : State) :
  forgetAnalysis s' = forgetAnalysis s ->
  currentFile s' = currentFile s
  /\ maxFileSize s' = maxFileSize s
  /\ allowedFormats s' = allowedFormats s
  /\ uploadArea_dragOver s' = uploadArea_dragOver s
  /\ fileInfo_display s' = fileInfo_display s
  /\ fileName_textContent s' = fileName_textContent s
  /\ fileSize_textContent s' = fileSize_textContent s
  /\ filePreview s' = filePreview s
  /\ readers s' = readers s.
Proof.
  destruct s, s'; cbn. intros H.
  injection H as -> -> -> -> -> -> -> -> -> ->. repeat split.
Qed.

(** X4.  [analyzeFile] never touches the selection: whatever the reply, and
    whether or not a file is selected, [currentFile], the description of the
    file, its preview and pending readers, the drop indicator and the
    configuration are after the call what they were before. *)
Theorem analyzeFile_keeps_selection (reply : Settled Response) (s : State) :
  let s' := analyzeFile reply s in
  forgetAnalysis s' = forgetAnalysis s
  /\ currentFile s' = currentFile s
  /\ fileInfo_display s' = fileInfo_display s
  /\ fileName_textContent s' = fileName_textContent s
  /\ filePreview s' = filePreview s
  /\ readers s' = readers s.
Proof.
  cbv zeta.
  assert (H : forgetAnalysis (analyzeFile reply s) = forgetAnalysis s).
  { unfold analyzeFile.
    apply (@drive_keeps (fun t => forgetAnalysis t = forgetAnalysis s)).
    1-6: intros; match goal with H : forgetAnalysis _ = _ |- _ => rewrite <- H end;
      match goal with |- forgetAnalysis (_ ?t) = _ => destruct t; reflexivity end.
    destruct (analyzeFile_call_shape s) as [[_ ->]|(file & _ & ->)]; cbn [fst];
      destruct s; reflexivity. }
  split; [exact H|].
  destruct (forgetAnalysis_fields _ _ H) as (Hc & _ & _ & _ & Hi & Hn & _ & Hp & Hr).
  repeat split; assumption.
Qed.

(** X5.  A call of [analyzeFile] with a file selected sends exactly one
    request, whatever the reply: a POST to [/predict] whose form has the one
    field [file], holding the selected file. *)
Theorem analyzeFile_sends_one_request (reply : Settled Response) (file : File) (s : State) :
  currentFile s = Some file ->
  network (analyzeFile reply s) = (network s ++ [predictRequest file])%list.
Proof.
  intros Hfile. unfold analyzeFile.
  apply (@drive_keeps
           (fun t => network t = (network s ++ [predictRequest file])%list)).
  1-6: intros; match goal with H : network _ = _ |- _ => rewrite <- H end;
    match goal with |- network (_ ?t) = _ => destruct t; reflexivity end.
  destruct (analyzeFile_call_shape s) as [[Hnone _]|(file' & Hsome & ->)].
  - congruence.
  - assert (file' = file) as -> by congruence. cbn [fst]. destruct s; reflexivity.
Qed.

Lemma analyzeFile_sends_one_request_witness :
  currentFile selected = Some scanPng
  /\ network (analyzeFile (Rejected (TypeError "Failed to fetch")) selected)
     = [predictRequest scanPng].
Proof.
  assert (H : currentFile selected = Some scanPng) by reflexivity.
  split; [exact H|].
  exact (analyzeFile_sends_one_request (Rejected (TypeError "Failed to fetch"))
           selected H).
Defined.

Lemma rendered_innerHTML (label : string) (s : State) :
  resultsContent_innerHTML (rendered label s) = affordance label ++ label ++ resultTail.
Proof.
  unfold rendered, affordance. rewrite isTumor_equalsIgnoreCase.
  destruct s; cbn [seq set_resultsCard_display set_resultsContent_innerHTML
                   resultsContent_innerHTML].
  destruct (Str.equalsIgnoreCase label "notumor"); reflexivity.
Qed.

Lemma analyzeFile_rejected_eq (e : Error) (file : File) (s : State) :
  currentFile s = Some file ->
  analyzeFile (Rejected e) s = finally (catch e (uploading file s)).
Proof.
  intros Hfile. unfold analyzeFile, analyzeFile_call. rewrite Hfile.
  rewrite try_start_uploading. cbn [guarded].
  rewrite drive_suspended. cbn [analyzeFile_resume].
  rewrite afterFetch_rejected. cbn [guarded]. rewrite drive_ended. reflexivity.
Qed.

Lemma analyzeFile_labelled_eq
    (response : Response) (data : value) (label : string) (file : File) (s : State) :
  currentFile s = Some file ->
  ok response = true ->
  json response = Fulfilled data ->
  JS.get data "prediction" = inr (VString label) ->
  analyzeFile (Fulfilled response) s =
  finally
    (showAlert "Analysis completed successfully!" "success"
       (rendered label
          (hideProgress
             (updateProgress 100 "Analysis complete!"
                (updateProgress 80 "AI model is analyzing the scan..."
                   (uploading file s)))))).
Proof.
  intros Hfile Hok Hjson Hget. unfold analyzeFile, analyzeFile_call. rewrite Hfile.
  rewrite try_start_uploading. cbn [guarded].
  rewrite drive_suspended. cbn [analyzeFile_resume].
  rewrite afterFetch_fulfilled, Hok. cbn [negb guarded].
  rewrite drive_suspended. cbn [analyzeFile_resume].
  rewrite (afterDataJson_fulfilled _ _ Hjson). cbn [guarded].
  rewrite drive_suspended. cbn [analyzeFile_resume].
  rewrite afterDelay_cases, Hget. cbn [JS.call_toLowerCase JS.toString guarded].
  rewrite drive_ended. reflexivity.
Qed.

(** X6.  An [ok] response whose body carries a string [prediction] is
    rendered: the results panel is shown with the markup of that label under
    the affordance its spelling selects, the success notification is added,
    nothing is logged, the progress bar is hidden at 100% and the analyze
    button is enabled. *)
Theorem analyzeFile_renders_label
    (response : Response) (data : value) (label : string) (file : File) (s : State) :
  currentFile s = Some file ->
  ok response = true ->
  json response = Fulfilled data ->
  JS.get data "prediction" = inr (VString label) ->
  let s' := analyzeFile (Fulfilled response) s in
  resultsCard_display s' = "block"
  /\ resultsContent_innerHTML s' = affordance label ++ label ++ resultTail
  /\ alertContainer s' =
     (alertContainer s
      ++ [successAlert (nextId s) "Analysis completed successfully!"])%list
  /\ console s' = console s
  /\ progressContainer_display s' = "none"
  /\ progressFill_width s' = "100%"
  /\ progressText_textContent s' = "Analysis complete!"
  /\ analyzeBtn_disabled s' = false.
Proof.
  intros Hfile Hok Hjson Hget s'. subst s'.
  rewrite (analyzeFile_labelled_eq _ _ Hfile Hok Hjson Hget).
  split; [destruct s; reflexivity|].
  split.
  { rewrite <- (rendered_innerHTML label s). destruct s; reflexivity. }
  destruct s; cbn. repeat split.
Qed.

Lemma analyzeFile_renders_label_witness :
  currentFile selected = Some scanPng
  /\ resultsContent_innerHTML
       (analyzeFile (respond 200 (VObject [("prediction", VString "NoTumor")])) selected)
     = resultHead "notumor" "fa-check-circle" "var(--success)" ++ "NoTumor" ++ resultTail.
Proof.
  assert (H : currentFile selected = Some scanPng) by reflexivity.
  split; [exact H|].
  pose proof (@analyzeFile_renders_label
                {| status := 200;
                   json := Fulfilled (VObject [("prediction", VString "NoTumor")]) |}
                (VObject [("prediction", VString "NoTumor")]) "NoTumor"
                scanPng selected H eq_refl eq_refl eq_refl) as (_ & Hm & _).
  exact Hm.
Defined.

(** X7.  A [fetch] that rejects (the server cannot be reached) is announced
    with the message of the rejection after ["Analysis failed: "] and logged
    once; the results panel is left as it was, the progress bar is hidden
    where the upload stood, at 30%, and the analyze button is enabled. *)
Theorem analyzeFile_network_failure (e : Error) (file : File) (s : State) :
  currentFile s = Some file ->
  let s' := analyzeFile (Rejected e) s in
  alertContainer s' =
    (alertContainer s ++ [errorAlert (nextId s) ("Analysis failed: " ++ message e)])%list
  /\ console s' = (console s ++ [e])%list
  /\ resultsCard_display s' = resultsCard_display s
  /\ resultsContent_innerHTML s' = resultsContent_innerHTML s
  /\ progressContainer_display s' = "none"
  /\ progressFill_width s' = "30%"
  /\ progressText_textContent s' = "Uploading to secure server..."
  /\ analyzeBtn_disabled s' = false.
Proof.
  intros Hfile s'. subst s'. rewrite (analyzeFile_rejected_eq e _ Hfile).
  destruct s; cbn. repeat split.
Qed.

Lemma analyzeFile_network_failure_witness :
  currentFile selected = Some scanPng
  /\ alertContainer (analyzeFile (Rejected (TypeError "Failed to fetch")) selected)
     = [errorAlert 0 "Analysis failed: Failed to fetch"].
Proof.
  assert (H : currentFile selected = Some scanPng) by reflexivity.
  split; [exact H|].
  pose proof (analyzeFile_network_failure (TypeError "Failed to fetch") selected H)
    as (Ha & _).
  exact Ha.
Defined.

(** X8.  [showResults] writes nothing for a label that is not a string: it
    throws a [TypeError] and the state is as it was. *)
Theorem showResults_rejects_non_string (prediction : value) (s : State) :
  (forall label, prediction <> VString label) ->
  exists e,
    error_name e = "TypeError"
    /\ showResults prediction s = Thrown e s.
Proof.
  intros Hns. destruct (@call_toLowerCase_throws prediction Hns) as (e & Hlow & He).
  exists e. split; [exact He|].
  unfold showResults, bind. rewrite Hlow. reflexivity.
Qed.

Lemma showResults_rejects_non_string_witness :
  (forall label, VNumber {| nonzero := true; decimal := "3" |} <> VString label)
  /\ exists e,
       error_name e = "TypeError"
       /\ showResults (VNumber {| nonzero := true; decimal := "3" |}) selected
          = Thrown e selected.
Proof.
  assert (H : forall label,
             VNumber {| nonzero := true; decimal := "3" |} <> VString label)
    by (intros label; discriminate).
  split; [exact H|].
  exact (showResults_rejects_non_string selected H).
Defined.

(** ** Invariants of the event loop *)

Ltac same_fields :=
  intros;
  repeat match goal with
         | s : State |- _ => destruct s
         end;
  cbn in *; unfold createFilePreview;
  repeat match goal with
         | |- context [if ?c then _ else _] => destruct c
         end;
  cbn in *; auto.

(** X9.  The configuration is fixed by the constructor: in every world that
    events reach, [maxFileSize] is 50 MiB and [allowedFormats] is the list of
    the constructor, so a file is accepted there exactly when it has at most
    52428800 bytes. *)
Theorem reachable_config (page : State) (w : World) :
  reachable page w ->
  maxFileSize (ui w) = 52428800
  /\ allowedFormats (ui w) = ["png"; "jpg"; "jpeg"; "gif"; "bmp"; "tiff"]
  /\ forall file, valid (validateFile file (ui w)) = (size file <=? 52428800).
Proof.
  intros [events Hrun].
  assert (H : maxFileSize (ui w) = 52428800
              /\ allowedFormats (ui w) = ["png"; "jpg"; "jpeg"; "gif"; "bmp"; "tiff"]).
  { eapply (@run_keeps
              (fun s => maxFileSize s = 52428800
                        /\ allowedFormats s = ["png"; "jpg"; "jpeg"; "gif"; "bmp"; "tiff"]));
      try exact Hrun; try solve [clear; same_fields].
    intros file s. clear. unfold processFile, validateFile.
    destruct (maxFileSize s <? size file); same_fields. }
  destruct H as [Hmax Hformats]. split; [exact Hmax|]. split; [exact Hformats|].
  intros file. rewrite validateFile_valid, Hmax. reflexivity.
Qed.

Lemma reachable_config_witness :
  reachable blankPage idle
  /\ valid (validateFile hugeScan (ui idle)) = false.
Proof.
  assert (H : reachable blankPage idle) by (exists [Change [scanPng]]; reflexivity).
  split; [exact H|].
  destruct (reachable_config H) as (_ & _ & Hv). rewrite Hv. reflexivity.
Defined.

Lemma notified_same (s s' : State) :
  alertContainer s' = alertContainer s ->
  timers s' = timers s ->
  nextId s' = nextId s ->
  notified s -> notified s'.
Proof. unfold notified. intros -> -> ->. exact (fun H => H). Qed.

Lemma notified_showAlert (m t : string) (s : State) :
  notified s -> notified (showAlert m t s).
Proof.
  unfold notified. intros H a. rewrite showAlert_alerts, showAlert_timers.
  replace (nextId (showAlert m t s)) with (S (nextId s)) by (destruct s; reflexivity).
  intros Ha. apply in_app_or in Ha. destruct Ha as [Ha|[<-|[]]].
  - destruct (H a Ha) as [Hlt Hin]. split; [lia|]. apply in_or_app. now left.
  - cbn. split; [lia|]. apply in_or_app. right. now left.
Qed.

Lemma In_removeNth {A} (x t : A) (i : nat) (l : list A) :
  In x l -> nth_error l i = Some t -> x <> t -> In x (removeNth i l).
Proof.
  revert i. induction l as [|y l IH]; intros [|i]; cbn; try contradiction.
  - intros [->|Hin] [= ->] Hne; [contradiction | exact Hin].
  - intros [->|Hin] Hnth Hne; [now left | right; eauto].
Qed.

Lemma notified_timer (i : nat) (t : Timer) (s : State) :
  nth_error (timers s) i = Some t ->
  notified s ->
  notified (removeAlert (target t) (set_timers (removeNth i (timers s)) s)).
Proof.
  unfold notified. intros Hnth H a. destruct s; cbn in *. intros Ha.
  apply filter_In in Ha. destruct Ha as [Ha Hid].
  apply negb_true_iff, Nat.eqb_neq in Hid.
  destruct (H a Ha) as [Hlt Hin]. split; [exact Hlt|].
  eapply In_removeNth; [exact Hin | exact Hnth|].
  intros <-. apply Hid. reflexivity.
Qed.

(** X10.  No notification is left without its removal.  From a page that
    shows no notification, every world that events reach has, for each
    notification on the page, a pending timer of 5000 ms that removes it,
    and the identity of the notification is below that of the next element
    created. *)
Theorem reachable_notified (page : State) (w : World) :
  alertContainer page = [] ->
  reachable page w ->
  notified (ui w).
Proof.
  intros Hnone [events Hrun].
  eapply (@run_keeps notified); try exact Hrun;
    try solve [intros; eapply notified_same; [| | |eassumption]; same_fields].
  - apply notified_showAlert.
  - intros file s. unfold processFile.
    destruct (negb (valid (validateFile file s))).
    + apply notified_showAlert.
    + apply notified_same; same_fields.
  - apply notified_timer.
  - unfold notified. destruct page; cbn in *. subst. intros a [].
Qed.

Lemma reachable_notified_witness :
  alertContainer blankPage = []
  /\ reachable blankPage {| ui := processFile hugeScan fresh; calls := [] |}
  /\ notified (processFile hugeScan fresh).
Proof.
  assert (H0 : alertContainer blankPage = []) by reflexivity.
  assert (H : reachable blankPage {| ui := processFile hugeScan fresh; calls := [] |})
    by (exists [Change [hugeScan]]; reflexivity).
  split; [exact H0|]. split; [exact H|].
  exact (reachable_notified H0 H).
Defined.

Lemma removeNth_last {A} (l : list A) (x : A) :
  removeNth (length l) (l ++ [x]) = l.
Proof. induction l as [|y l IH]; cbn; [reflexivity | now rewrite IH]. Qed.

Lemma filter_fresh (n : nat) (l : list Alert) (a : Alert) :
  (forall b, In b l -> alert_id b <> n) ->
  alert_id a = n ->
  filter (fun b => negb (Nat.eqb (alert_id b) n)) (l ++ [a]) = l.
Proof.
  intros Hl Ha. rewrite filter_app. cbn. rewrite Ha, Nat.eqb_refl. cbn.
  rewrite app_nil_r. induction l as [|b l IH]; cbn; [reflexivity|].
  destruct (Nat.eqb_spec (alert_id b) n) as [Heq|_]; cbn.
  - exfalso. apply (Hl b); [now left | exact Heq].
  - rewrite IH; [reflexivity|]. intros c Hc. apply Hl. now right.
Qed.

(** X11.  A notification and its timer undo each other.  Where no
    notification on the page has the identity of the next element, showing
    a notification and then firing the timer it scheduled gives back the
    state before it, the count of elements created apart. *)
Theorem showAlert_then_timer (m t : string) (s : State) (pending : list Suspended) :
  (forall a, In a (alertContainer s) -> alert_id a <> nextId s) ->
  fire (TimerFires (length (timers s))) {| ui := showAlert m t s; calls := pending |}
  = Some {| ui := set_nextId (S (nextId s)) s; calls := pending |}.
Proof.
  intros Hfresh. unfold fire. cbn [ui]. rewrite showAlert_timers, nth_error_last.
  unfold onUi. cbn [ui calls target]. f_equal. f_equal.
  destruct s; cbn in *. rewrite removeNth_last.
  rewrite (@filter_fresh nextId0); [reflexivity | exact Hfresh | reflexivity].
Qed.

Lemma showAlert_then_timer_witness :
  (forall a, In a (alertContainer selected) -> alert_id a <> nextId selected)
  /\ fire (TimerFires 0)
       {| ui := showAlert "File size exceeds 50MB limit." "error" selected; calls := [] |}
     = Some {| ui := set_nextId 1 selected; calls := [] |}.
Proof.
  assert (H : forall a, In a (alertContainer selected) -> alert_id a <> nextId selected)
    by (intros a []).
  split; [exact H|].
  exact (@showAlert_then_timer "File size exceeds 50MB limit." "error" selected [] H).
Defined.

(** ** One call at a time, as long as no file is selected meanwhile *)

Lemma removeNth_length {A} (i : nat) (x : A) (l : list A) :
  nth_error l i = Some x -> S (length (removeNth i l)) = length l.
Proof.
  revert i. induction l as [|y l IH]; intros [|i]; cbn; try discriminate.
  - reflexivity.
  - intros H. now rewrite (IH _ H).
Qed.

Lemma updateProgress_disabled (p : N) (t : string) (s : State) :
  analyzeBtn_disabled (updateProgress p t s) = analyzeBtn_disabled s.
Proof. destruct s; reflexivity. Qed.

(** The [i]-th call goes on in a world where calls exclude each other. *)
Lemma resumed_exclusive (i : nat) (k : Suspended) (reply : Settled Response) (w : World) :
  nth_error (calls w) i = Some k ->
  exclusive w ->
  exclusive (resumed i (analyzeFile_resume k reply (ui w)) w).
Proof.
  intros Hnth [Hlen Hdis].
  assert (Hne : calls w <> []) by (intros E; rewrite E in Hnth; destruct i; discriminate).
  pose proof (removeNth_length _ _ Hnth) as Hrem.
  destruct (analyzeFile_resume_shape k reply (ui w))
    as [(p & t & k' & ->)|[(e & ->)|(label & ->)]]; unfold resumed, exclusive; cbn [ui calls].
  - rewrite replaceNth_length. split; [exact Hlen|].
    intros _. rewrite updateProgress_disabled. exact (Hdis Hne).
  - split; [lia|]. intros Hcalls. exfalso. apply Hcalls.
    destruct (removeNth i (calls w)); [reflexivity | cbn in Hrem; lia].
  - split; [lia|]. intros Hcalls. exfalso. apply Hcalls.
    destruct (removeNth i (calls w)); [reflexivity | cbn in Hrem; lia].
Qed.

Lemma fire_exclusive (e : Event) (w w' : World) :
  quiet e = true -> fire e w = Some w' -> exclusive w -> exclusive w'.
Proof.
  intros Hquiet Hfire Hex. pose proof Hex as [Hlen Hdis].
  destruct e; cbn [fire] in Hfire.
  - destruct files; [|discriminate]. injection Hfire as <-. exact Hex.
  - injection Hfire as <-. destruct w as [s c]. split; [exact Hlen|].
    intros Hc. destruct s; exact (Hdis Hc).
  - injection Hfire as <-. destruct w as [s c]. split; [exact Hlen|].
    intros Hc. destruct s; exact (Hdis Hc).
  - destruct files; [|discriminate]. injection Hfire as <-.
    destruct w as [s c]. split; [exact Hlen|].
    intros Hc. destruct s; exact (Hdis Hc).
  - injection Hfire as <-. destruct w as [s c]. split; [exact Hlen|].
    intros _. destruct s; reflexivity.
  - destruct (analyzeBtn_disabled (ui w)) eqn:Hbtn; [discriminate|].
    assert (Hnone : calls w = []).
    { destruct (calls w) as [|k c] eqn:Hc; [reflexivity|].
      assert (Htrue : true = false) by (rewrite <- Hdis; [reflexivity | discriminate]).
      discriminate Htrue. }
    destruct (analyzeFile_call_shape (ui w)) as [[_ Heq]|(file & _ & Heq)];
      rewrite Heq in Hfire; injection Hfire as <-; unfold exclusive; cbn [ui calls];
      rewrite Hnone; cbn.
    + split; [lia|]. intros Hc. now contradiction Hc.
    + split; [lia|]. intros _. destruct (ui w); reflexivity.
  - destruct (nth_error (calls w) i) as [[request| | |]|] eqn:Hnth; try discriminate.
    injection Hfire as <-.
    exact (resumed_exclusive i reply Hnth Hex).
  - destruct (nth_error (calls w) i) as [k|] eqn:Hnth; [|discriminate].
    destruct k; try discriminate; injection Hfire as <-;
      exact (resumed_exclusive i (Rejected (mkError Str.empty)) Hnth Hex).
  - destruct (nth_error (timers (ui w)) i); [|discriminate].
    injection Hfire as <-. destruct w as [s c]. split; [exact Hlen|].
    intros Hc. destruct s; exact (Hdis Hc).
  - destruct (nth_error (readers (ui w)) i); [|discriminate].
    injection Hfire as <-. destruct w as [s c]. split; [exact Hlen|].
    intros Hc. destruct s; exact (Hdis Hc).
Qed.

Lemma inFlight_le_calls (w : World) : (inFlight w <= length (calls w))%nat.
Proof.
  unfold inFlight. induction (calls w) as [|k c IH]; cbn; [lia|].
  destruct (isAwaitFetch k); cbn; lia.
Qed.

(** X12.  One request at a time, as long as no file is selected meanwhile.
    From a world where calls exclude each other (one where none is
    suspended, for one), events that hand no file to [processFile] lead only
    to worlds with at most one suspended call, hence at most one request in
    flight, and with the analyze button disabled while that call lasts. *)
Theorem run_quiet_exclusive (events : list Event) (w w' : World) :
  exclusive w ->
  forallb quiet events = true ->
  run events w = Some w' ->
  exclusive w' /\ (inFlight w' <= 1)%nat.
Proof.
  intros Hex Hquiet Hrun.
  assert (H : exclusive w').
  { revert w Hex Hquiet Hrun.
    induction events as [|e events IH]; intros w Hex Hquiet Hrun; cbn in *.
    - injection Hrun as <-. exact Hex.
    - apply andb_true_iff in Hquiet. destruct Hquiet as [He Hrest].
      destruct (fire e w) as [w1|] eqn:Hfire; [|discriminate].
      exact (IH w1 (@fire_exclusive e w w1 He Hfire Hex) Hrest Hrun). }
  split; [exact H|]. pose proof (inFlight_le_calls w'). destruct H as [Hlen _]. lia.
Qed.

Lemma run_quiet_exclusive_witness :
  exclusive idle
  /\ forallb quiet [ClickAnalyze; DragOver; ClickRemove] = true
  /\ exists w',
       run [ClickAnalyze; DragOver; ClickRemove] idle = Some w'
       /\ exclusive w' /\ (inFlight w' <= 1)%nat.
Proof.
  assert (Hex : exclusive idle).
  { split; [cbn; lia | intros H; now contradiction H]. }
  assert (Hq : forallb quiet [ClickAnalyze; DragOver; ClickRemove] = true)
    by reflexivity.
  split; [exact Hex|]. split; [exact Hq|].
  eexists. split; [reflexivity|].
  exact (@run_quiet_exclusive [ClickAnalyze; DragOver; ClickRemove] idle _
           Hex Hq eq_refl).
Defined.

(** ** What [removeFile] does not cancel *)

(** X13.  A pending reader outlives [removeFile].  When the file is removed
    and a reader started earlier then loads, the preview pane shows its
    image although no file is selected: the controller is not in the Empty
    state. *)
Theorem reader_loads_after_removeFile
    (w : World) (i : nat) (file : File) (result : string) :
  nth_error (readers (ui w)) i = Some file ->
  exists w',
    run [ClickRemove; ReaderLoads i result] w = Some w'
    /\ currentFile (ui w') = None
    /\ filePreview (ui w') = [Img result]
    /\ readers (ui w') = removeNth i (readers (ui w))
    /\ ~ Empty (ui w').
Proof.
  intros Hnth. destruct w as [s c]. destruct s. cbn in Hnth.
  cbn. rewrite Hnth. eexists. split; [reflexivity|]. cbn.
  repeat split. intros (_ & Hp & _). discriminate Hp.
Qed.

Lemma reader_loads_after_removeFile_witness :
  nth_error (readers (ui idle)) 0 = Some scanPng
  /\ exists w',
       run [ClickRemove; ReaderLoads 0 "data:image/png;base64,AAAA"] idle = Some w'
       /\ currentFile (ui w') = None
       /\ filePreview (ui w') = [Img "data:image/png;base64,AAAA"].
Proof.
  assert (H : nth_error (readers (ui idle)) 0 = Some scanPng) by reflexivity.
  split; [exact H|].
  destruct (@reader_loads_after_removeFile idle 0 scanPng
              "data:image/png;base64,AAAA" H) as (w' & Hrun & Hc & Hp & _).
  exists w'. split; [exact Hrun|]. split; [exact Hc | exact Hp].
Defined.

(** X14.  A suspended call outlives [removeFile].  When the file is removed
    while a call waits out its delay with a labelled body, the call still
    renders the label once it goes on: the results panel is shown and the
    analyze button is enabled although no file is selected. *)
Theorem late_result_after_removeFile
    (w : World) (i : nat) (delay : N) (data : value) (label : string) :
  nth_error (calls w) i = Some (AwaitDelay delay data) ->
  JS.get data "prediction" = inr (VString label) ->
  exists w',
    run [ClickRemove; Resumes i] w = Some w'
    /\ calls w' = removeNth i (calls w)
    /\ currentFile (ui w') = None
    /\ analyzeBtn_disabled (ui w') = false
    /\ resultsCard_display (ui w') = "block"
    /\ resultsContent_innerHTML (ui w') = affordance label ++ label ++ resultTail.
Proof.
  intros Hnth Hget. destruct w as [s c]. cbn [calls ui] in *.
  cbn [run fire onUi ui calls]. rewrite Hnth.
  cbn [analyzeFile_resume]. rewrite afterDelay_cases, Hget.
  cbn [JS.call_toLowerCase JS.toString guarded resumed].
  eexists. split; [reflexivity|]. cbn [ui calls].
  split; [reflexivity|].
  split; [destruct s; reflexivity|].
  split; [destruct s; reflexivity|].
  split; [destruct s; reflexivity|].
  rewrite <- (rendered_innerHTML label s). destruct s; reflexivity.
Qed.

Lemma late_result_after_removeFile_witness :
  nth_error (calls awaitingDelay) 0
    = Some (AwaitDelay 500 (VObject [("prediction", VString "Glioma")]))
  /\ exists w',
       run [ClickRemove; Resumes 0] awaitingDelay = Some w'
       /\ currentFile (ui w') = None
       /\ resultsCard_display (ui w') = "block".
Proof.
  assert (H : nth_error (calls awaitingDelay) 0
              = Some (AwaitDelay 500 (VObject [("prediction", VString "Glioma")])))
    by reflexivity.
  split; [exact H|].
  destruct (@late_result_after_removeFile awaitingDelay 0 500
              (VObject [("prediction", VString "Glioma")]) "Glioma" H eq_refl)
    as (w' & Hrun & _ & Hc & _ & Hd & _).
  exists w'. split; [exact Hrun|]. split; [exact Hc | exact Hd].
Defined.

(** ** An [ok] response that is not JSON *)

(** X15.  An [ok] response whose body does not parse is a failure like any
    other: the parser's message is announced after ["Analysis failed: "] and
    logged, the results panel is left as it was, the progress bar is hidden
    where the analysis stood, at 80%, and the analyze button is enabled. *)
Theorem analyzeFile_ok_unparseable
    (response : Response) (e : Error) (file : File) (s : State) :
  currentFile s = Some file ->
  ok response = true ->
  json response = Rejected e ->
  let s' := analyzeFile (Fulfilled response) s in
  alertContainer s' =
    (alertContainer s ++ [errorAlert (nextId s) ("Analysis failed: " ++ message e)])%list
  /\ console s' = (console s ++ [e])%list
  /\ resultsCard_display s' = resultsCard_display s
  /\ resultsContent_innerHTML s' = resultsContent_innerHTML s
  /\ progressContainer_display s' = "none"
  /\ progressFill_width s' = "80%"
  /\ analyzeBtn_disabled s' = false.
Proof.
  intros Hfile Hok Hjson s'. subst s'.
  unfold analyzeFile, analyzeFile_call. rewrite Hfile.
  rewrite try_start_uploading. cbn [guarded].
  rewrite drive_suspended. cbn [analyzeFile_resume].
  rewrite afterFetch_fulfilled, Hok. cbn [negb guarded].
  rewrite drive_suspended. cbn [analyzeFile_resume].
  rewrite (afterDataJson_rejected _ _ Hjson). cbn [guarded].
  rewrite drive_ended. cbn [fst].
  destruct s; cbn. repeat split.
Qed.

Lemma analyzeFile_ok_unparseable_witness :
  currentFile selected = Some scanPng
  /\ alertContainer
       (analyzeFile (respondGarbage 200 "Unexpected token '<'") selected)
     = [errorAlert 0 "Analysis failed: Unexpected token '<'"].
Proof.
  assert (H : currentFile selected = Some scanPng) by reflexivity.
  split; [exact H|].
  pose proof (@analyzeFile_ok_unparseable
                {| status := 200;
                   json := Rejected {| error_name := "SyntaxError";
                                       message := "Unexpected token '<'" |} |}
                {| error_name := "SyntaxError"; message := "Unexpected token '<'" |}
                scanPng selected H eq_refl eq_refl) as (Ha & _).
  exact Ha.
Defined.

(** ** The two outcomes of a call *)



